(** * Internal transfers system: the transfer engine and its error model

    A shallow embedding of the Go packages [models] (domain errors, money
    parsing) and [service] (the transfer engine: [Transfer],
    [executeTransfer], [GetAccountTransactions]), of the repository ports
    they call ([interfaces.AccountRepository],
    [interfaces.TransactionRepository], [pgx.Tx]) and of the in-memory
    doubles of package [mocks].

    Go's [int], [int64] and [time.Duration] are 64-bit two's complement
    integers; they are carried here as [Z], with the wrap-around written
    out where the code multiplies or shifts.  Texts are [string]s of
    bytes. *)

From Stdlib Require Import ZArith List String Ascii Bool Lia.
Import ListNotations.
Set Warnings "-register-all".
Local Open Scope string_scope.
Local Open Scope Z_scope.

(* ================================================================== *)
(** * Machine integers *)
(* ================================================================== *)

Module int64.

Definition min : Z := - 2 ^ 63.
Definition max : Z := 2 ^ 63 - 1.

Definition in_range (z : Z) : Prop := min <= z <= max.

(** Two's complement reduction of an integer to 64 bits. *)
Definition wrap (z : Z) : Z := (z + 2 ^ 63) mod 2 ^ 64 - 2 ^ 63.

(** [uint(z)]: conversion of an [int] to the unsigned type. *)
Definition to_uint (z : Z) : Z := z mod 2 ^ 64.

Definition mul (a b : Z) : Z := wrap (a * b).

(** [a << n] for an unsigned count [n]: the bits shifted beyond the
    width are lost, and a count of 64 or more leaves zero. *)
Definition shl (a n : Z) : Z :=
  if n <? 64 then wrap (Z.shiftl a n) else 0.

End int64.

(* ================================================================== *)
(** * Texts: the functions of package [strings] the code calls *)
(* ================================================================== *)

Module strings.

(** [strings.HasPrefix(s, p)]. *)
Fixpoint HasPrefix (s p : string) {struct p} : bool :=
  match p with
  | EmptyString => true
  | String c p' =>
      match s with
      | EmptyString => false
      | String d s' => Ascii.eqb d c && HasPrefix s' p'
      end
  end.

(** [strings.Contains(s, p)]: [p] occurs in [s] at some offset. *)
Fixpoint Contains (s p : string) {struct s} : bool :=
  HasPrefix s p ||
  match s with
  | EmptyString => false
  | String _ s' => Contains s' p
  end.

(** Lower-casing of one byte: the letters [A]..[Z] move to [a]..[z].
    Bytes outside ASCII are left as they are (Go maps the runes they
    encode through the Unicode tables; the texts the engine builds
    itself are ASCII). *)
Definition lowerByte (c : ascii) : ascii :=
  let n := nat_of_ascii c in
  if (Nat.leb 65 n && Nat.leb n 90)%bool then ascii_of_nat (n + 32) else c.

(** [strings.ToLower(s)]. *)
Fixpoint ToLower (s : string) : string :=
  match s with
  | EmptyString => EmptyString
  | String c s' => String (lowerByte c) (ToLower s')
  end.

End strings.

(* ================================================================== *)
(** * Exact decimals: the value type [decimal.Decimal] *)
(* ================================================================== *)

(** The engine computes on money only through the methods below.  A
    decimal is an unbounded integer coefficient with a base-ten exponent
    and denotes [value * 10 ^ exp]; sums, differences and comparisons
    first bring both operands to the smaller of the two exponents. *)
Module decimal.

Record Decimal : Type := New { value : Z; exp : Z }.

(** [decimal.Zero]. *)
Definition Zero : Decimal := New 0 1.

(** The coefficient of [d] once written with exponent [e <= exp d]. *)
Definition rescale (d : Decimal) (e : Z) : Decimal :=
  New (value d * 10 ^ (exp d - e)) e.

Definition RescalePair (d1 d2 : Decimal) : Decimal * Decimal :=
  let e := Z.min (exp d1) (exp d2) in
  (rescale d1 e, rescale d2 e).

Definition Add (d d2 : Decimal) : Decimal :=
  let (rd, rd2) := RescalePair d d2 in
  New (value rd + value rd2) (exp rd).

Definition Sub (d d2 : Decimal) : Decimal :=
  let (rd, rd2) := RescalePair d d2 in
  New (value rd - value rd2) (exp rd).

(** [d.Cmp(d2)]: [Lt], [Eq] or [Gt] for the library's -1, 0, 1. *)
Definition Cmp (d d2 : Decimal) : comparison :=
  let (rd, rd2) := RescalePair d d2 in
  Z.compare (value rd) (value rd2).

Definition Equal (d d2 : Decimal) : bool :=
  match Cmp d d2 with Eq => true | _ => false end.

Definition LessThan (d d2 : Decimal) : bool :=
  match Cmp d d2 with Lt => true | _ => false end.

Definition LessThanOrEqual (d d2 : Decimal) : bool :=
  match Cmp d d2 with Gt => false | _ => true end.

Definition IsZero (d : Decimal) : bool := value d =? 0.

Definition IsNegative (d : Decimal) : bool := value d <? 0.

(** [decimal.NewFromInt]. *)
Definition NewFromInt (n : Z) : Decimal := New n 0.

End decimal.

Import decimal.

(* ================================================================== *)
(** * Package [models]: the domain error model *)
(* ================================================================== *)

Module models.

Inductive ErrorCode : Type :=
| CodeAccountNotFound
| CodeInsufficientBalance
| CodeInvalidAmount
| CodeCurrencyMismatch
| CodeSameAccount
| CodeTransferNotFound
| CodeAccountAlreadyExists
| CodeDuplicateTransaction
| CodeDatabaseError
| CodeTransactionFailed
| CodeInternalError.

(** The text of each code constant. *)
Definition code_text (c : ErrorCode) : string :=
  match c with
  | CodeAccountNotFound => "account_not_found"
  | CodeInsufficientBalance => "insufficient_balance"
  | CodeInvalidAmount => "invalid_amount"
  | CodeCurrencyMismatch => "currency_mismatch"
  | CodeSameAccount => "same_account"
  | CodeTransferNotFound => "transaction_not_found"
  | CodeAccountAlreadyExists => "account_exists"
  | CodeDuplicateTransaction => "duplicate_transaction"
  | CodeDatabaseError => "database_error"
  | CodeTransactionFailed => "transaction_failed"
  | CodeInternalError => "internal_error"
  end.

Definition ErrorCode_eqb (a b : ErrorCode) : bool :=
  String.eqb (code_text a) (code_text b).

(** The two errors a [context.Context] reports once it is done. *)
Inductive ContextErr : Type := Canceled | DeadlineExceeded.

(** Values of Go's [error] interface as the engine meets them: a
    [DomainError] pointer, the error of a finished context, or any other error,
    kept by the text its [Error()] method returns ([errors.New],
    [fmt.Errorf], driver errors). *)
Inductive error : Type :=
| DomainError (Code : ErrorCode) (Message : string) (Cause : option error)
| ctxErr (k : ContextErr)
| errorString (text : string).

(** [err.Error()]. *)
Fixpoint Error (e : error) : string :=
  match e with
  | DomainError c m (Some cause) =>
      code_text c ++ ": " ++ m ++ ": " ++ Error cause
  | DomainError c m None => code_text c ++ ": " ++ m
  | ctxErr Canceled => "context canceled"
  | ctxErr DeadlineExceeded => "context deadline exceeded"
  | errorString s => s
  end.

(** [DomainError.Unwrap]. *)
Definition Unwrap (e : error) : option error :=
  match e with
  | DomainError _ _ cause => cause
  | _ => None
  end.

(** [DomainError.Is]: matching is by code alone. *)
Definition Is (e target : error) : bool :=
  match e, target with
  | DomainError c _ _, DomainError c' _ _ => ErrorCode_eqb c c'
  | _, _ => false
  end.

Definition NewDomainError (code : ErrorCode) (message : string) : error :=
  DomainError code message None.

Definition WrapError (code : ErrorCode) (message : string)
    (cause : option error) : error :=
  DomainError code message cause.

Definition ErrAccountNotFound : error :=
  DomainError CodeAccountNotFound "account not found" None.
Definition ErrInsufficientBalance : error :=
  DomainError CodeInsufficientBalance
    "insufficient balance for this transaction" None.
Definition ErrInvalidAmount : error :=
  DomainError CodeInvalidAmount
    "amount must be a positive decimal value" None.
Definition ErrCurrencyMismatch : error :=
  DomainError CodeCurrencyMismatch "currency mismatch between accounts" None.
Definition ErrSameAccount : error :=
  DomainError CodeSameAccount
    "source and destination accounts cannot be the same" None.
Definition ErrTransferNotFound : error :=
  DomainError CodeTransferNotFound "transaction not found" None.
Definition ErrAccountAlreadyExists : error :=
  DomainError CodeAccountAlreadyExists
    "account with this ID already exists" None.
Definition ErrDuplicateTransaction : error :=
  DomainError CodeDuplicateTransaction "duplicate transaction detected" None.

(** [IsDomainError]: [errors.As] stops at the error itself when it is a
    [DomainError]; the other errors of the model wrap nothing. *)
Definition IsDomainError (err : option error) : option ErrorCode :=
  match err with
  | Some (DomainError c _ _) => Some c
  | _ => None
  end.

Definition patterns : list string :=
  ["deadlock"; "serialize"; "connection"; "timeout"].

(** [IsRetryable]: a marker occurs in the lower-cased text of the error.
    [None] is Go's [nil]. *)
Definition IsRetryable (err : option error) : bool :=
  match err with
  | None => false
  | Some e =>
      let errStr := strings.ToLower (Error e) in
      existsb (fun p => strings.Contains errStr p) patterns
  end.

End models.

Import models.

(* ================================================================== *)
(** * Package [models]: accounts, transfers, requests, money *)
(* ================================================================== *)

(** What a Go function returning [(T, error)] yields. *)
Inductive result (A : Type) : Type :=
| Ok (a : A)
| Err (e : error).

Arguments Ok {A} a.
Arguments Err {A} e.

Definition err_of {A : Type} (r : result A) : option error :=
  match r with
  | Ok _ => None
  | Err e => Some e
  end.

(** Time stamps are opaque to the engine; they are carried as integers. *)
Record Account : Type := mkAccount {
  AccountID : Z;
  Balance : Decimal;
  Account_CreatedAt : Z;
  UpdatedAt : Z
}.

Record Transaction : Type := mkTransaction {
  TransactionID : Z;
  SourceAccountID : Z;
  DestinationAccountID : Z;
  Amount : Decimal;
  CreatedAt : Z
}.

Record CreateTransactionRequest : Type := mkCreateTransactionRequest {
  req_SourceAccountID : Z;
  req_DestinationAccountID : Z;
  req_Amount : string
}.

(** [decimal.NewFromString] belongs to the decimal library; the code
    depends only on whether it fails and on the value it yields, so the
    parser is an interface of the development. *)
Class DecimalParser : Type := {
  NewFromString : string -> result Decimal
}.

(** The verb [%q] on a text: the text between double quotes (the escapes
    Go writes for the quotes, backslashes and unprintable bytes of the
    text itself are not rendered). *)
Definition quoted (s : string) : string :=
  let q := String (ascii_of_nat 34) EmptyString in
  q ++ s ++ q.

(** [ParseMoney]. *)
Definition ParseMoney `{DecimalParser} (s : string) : result Decimal :=
  if String.eqb s "" then Err (errorString "empty amount string")
  else
    match NewFromString s with
    | Err err =>
        Err (errorString ("invalid decimal " ++ quoted s ++ ": " ++ Error err))
    | Ok d => Ok d
    end.

Local Open Scope list_scope.

(* ================================================================== *)
(** * Package [interfaces]: the ports of the engine *)
(* ================================================================== *)

(** The collaborators are reached through interfaces.  [W] is the state of
    everything outside the engine (the database, the caller's context,
    the clock); [Tx] is the handle of an open store transaction.  A call
    is a function of that state: it returns what the Go method returns,
    and the state after the call. *)

Class AccountRepository (W Tx : Type) : Type := {
  BeginTx : W -> result Tx * W;
  GetByIDForUpdate : Tx -> Z -> W -> result Account * W;
  UpdateBalance : Tx -> Z -> Decimal -> W -> option error * W
}.

(** [Create] fills in the identifier and the creation time of the
    transfer it is handed; on success it returns the two. *)
Class TransactionRepository (W Tx : Type) : Type := {
  Create : Tx -> Transaction -> W -> result (Z * Z) * W;
  GetByID : Z -> W -> result Transaction * W;
  GetByAccountID : Z -> Z -> Z -> W -> result (list Transaction) * W
}.

(** The two methods of [pgx.Tx] the engine calls. *)
Class PgxTx (W Tx : Type) : Type := {
  Commit : Tx -> W -> option error * W;
  Rollback : Tx -> W -> option error * W
}.

(** The wait between two attempts,
    [select { case <-time.After(delay): case <-ctx.Done(): ... ctx.Err() }]:
    [None] when the timer fires, [Some k] when the context is done first,
    [k] being what [ctx.Err()] then reports. *)
Class Runtime (W : Type) : Type := {
  AfterOrDone : Z -> W -> option ContextErr * W
}.

(* ================================================================== *)
(** * Calls observed *)
(* ================================================================== *)

(** Every call through a port is recorded with what it was given and what
    it returned. *)
Inductive Event : Type :=
| EvBeginTx (err : option error)
| EvGetByIDForUpdate (accountID : Z) (r : result Account)
| EvUpdateBalance (accountID : Z) (newBalance : Decimal) (err : option error)
| EvCreate (txn : Transaction) (r : result (Z * Z))
| EvCommit (err : option error)
| EvRollback (err : option error)
| EvGetByID (transactionID : Z) (r : result Transaction)
| EvGetByAccountID (accountID limit offset : Z) (r : result (list Transaction))
| EvWait (delay : Z) (r : option ContextErr).

(** A computation of the engine: from the state of the collaborators to a
    value, their state afterwards, and the calls made, oldest first. *)
Definition M (W A : Type) : Type := W -> A * W * list Event.

Definition ret {W A : Type} (a : A) : M W A := fun w => (a, w, []).

Definition bind {W A B : Type} (m : M W A) (k : A -> M W B) : M W B :=
  fun w =>
    let '(a, w1, t1) := m w in
    let '(b, w2, t2) := k a w1 in
    (b, w2, t1 ++ t2).

(** One call through a port: run it, and record the event [ev] makes of
    what it returned. *)
Definition call {W A : Type} (op : W -> A * W) (ev : A -> Event) : M W A :=
  fun w => let '(a, w1) := op w in (a, w1, [ev a]).

Declare Scope engine_scope.
Delimit Scope engine_scope with engine.
Notation "x <- m ;; k" := (bind m (fun x => k))
  (at level 61, m at next level, right associativity) : engine_scope.

Definition is_begin (e : Event) : bool :=
  match e with
  | EvBeginTx _ => true
  | _ => false
  end.

(** The ids on which a row lock was asked for, in the order of the calls. *)
Fixpoint locks (t : list Event) : list Z :=
  match t with
  | [] => []
  | EvGetByIDForUpdate id _ :: t' => id :: locks t'
  | _ :: t' => locks t'
  end.

(** The delays slept, in the order of the waits. *)
Fixpoint waits (t : list Event) : list Z :=
  match t with
  | [] => []
  | EvWait d _ :: t' => d :: waits t'
  | _ :: t' => waits t'
  end.

(** The number of attempts: every attempt starts by [BeginTx]. *)
Definition attempts (t : list Event) : nat :=
  List.length (filter is_begin t).

(* ================================================================== *)
(** * Package [service]: the transfer engine *)
(* ================================================================== *)

Module service.

Local Open Scope engine_scope.

(** Durations count nanoseconds. *)
Definition Millisecond : Z := 1000000.

Record TransferServiceConfig : Type := mkConfig {
  MaxRetries : Z;
  RetryBaseDelay : Z
}.

Definition DefaultTransferConfig : TransferServiceConfig :=
  {| MaxRetries := 3; RetryBaseDelay := 100 * Millisecond |}.

Definition DefaultPageSize : Z := 20.
Definition MaxPageSize : Z := 100.

(** [firstID, secondID := sourceID, destID], swapped when out of order. *)
Definition lockOrder (sourceID destID : Z) : Z * Z :=
  if sourceID >? destID then (destID, sourceID) else (sourceID, destID).

(** The two locked rows go back to their roles:
    [if firstID == sourceID { first, second } else { second, first }]. *)
Definition assignRoles (firstID sourceID : Z) (first second : Account)
    : Account * Account :=
  if firstID =? sourceID then (first, second) else (second, first).

(** [s.config.RetryBaseDelay * time.Duration(1<<uint(attempt-1))]. *)
Definition retryDelay (config : TransferServiceConfig) (attempt : Z) : Z :=
  int64.mul (RetryBaseDelay config)
            (int64.shl 1 (int64.to_uint (attempt - 1))).

Section Engine.

Context {W Tx : Type}.
Context {parser : DecimalParser}.
Context {accountRepo : AccountRepository W Tx}.
Context {transactionRepo : TransactionRepository W Tx}.
Context {pgxTx : PgxTx W Tx}.
Context {runtime : Runtime W}.

Variable config : TransferServiceConfig.

(** The body of [executeTransfer] once the transaction is open and its
    rollback deferred. *)
Definition transferInTx (tx : Tx) (sourceID destID : Z) (amount : Decimal)
    : M W (result Transaction) :=
  let (firstID, secondID) := lockOrder sourceID destID in
  r1 <- call (GetByIDForUpdate tx firstID) (EvGetByIDForUpdate firstID) ;;
  match r1 with
  | Err err => ret (Err err)
  | Ok first =>
  r2 <- call (GetByIDForUpdate tx secondID) (EvGetByIDForUpdate secondID) ;;
  match r2 with
  | Err err => ret (Err err)
  | Ok second =>
  let (sourceAccount, destAccount) :=
    assignRoles firstID sourceID first second in
  if LessThan (Balance sourceAccount) amount
  then ret (Err ErrInsufficientBalance)
  else
  let newSourceBalance := Sub (Balance sourceAccount) amount in
  let newDestBalance := Add (Balance destAccount) amount in
  e1 <- call (UpdateBalance tx (AccountID sourceAccount) newSourceBalance)
             (EvUpdateBalance (AccountID sourceAccount) newSourceBalance) ;;
  match e1 with
  | Some err =>
      ret (Err (WrapError CodeDatabaseError
                  "failed to update source balance" (Some err)))
  | None =>
  e2 <- call (UpdateBalance tx (AccountID destAccount) newDestBalance)
             (EvUpdateBalance (AccountID destAccount) newDestBalance) ;;
  match e2 with
  | Some err =>
      ret (Err (WrapError CodeDatabaseError
                  "failed to update destination balance" (Some err)))
  | None =>
  let transaction := mkTransaction 0 sourceID destID amount 0 in
  r3 <- call (Create tx transaction) (EvCreate transaction) ;;
  match r3 with
  | Err err =>
      ret (Err (WrapError CodeDatabaseError
                  "failed to create transaction record" (Some err)))
  | Ok (id, created) =>
  e3 <- call (Commit tx) EvCommit ;;
  match e3 with
  | Some err =>
      ret (Err (WrapError CodeDatabaseError
                  "failed to commit transaction" (Some err)))
  | None => ret (Ok (mkTransaction id sourceID destID amount created))
  end end end end end end.

(** [executeTransfer]: one attempt.  The deferred [tx.Rollback] runs on
    every way out once [BeginTx] has succeeded; what it returns is only
    logged. *)
Definition executeTransfer (sourceID destID : Z) (amount : Decimal)
    : M W (result Transaction) :=
  r <- call BeginTx (fun r => EvBeginTx (err_of r)) ;;
  match r with
  | Err err =>
      ret (Err (WrapError CodeDatabaseError
                  "failed to begin transaction" (Some err)))
  | Ok tx =>
      res <- transferInTx tx sourceID destID amount ;;
      _ <- call (Rollback tx) EvRollback ;;
      ret res
  end.

(** The head of an iteration: [if attempt > 0 { ... select ... }].
    [Some k] when the caller's context ended the wait. *)
Definition backoff (attempt : Z) : M W (option ContextErr) :=
  if attempt >? 0
  then let delay := retryDelay config attempt in
       call (AfterOrDone delay) (EvWait delay)
  else ret None.

(** The loop of [Transfer],
    [for attempt := 0; attempt <= s.config.MaxRetries; attempt++],
    from the iteration numbered [attempt] with [n] iterations left to
    run; [lastErr] is the error of the attempt before.  The counter
    stays below the largest [int] as long as [MaxRetries] does. *)
Fixpoint retryLoop (n : nat) (attempt : Z) (lastErr : option error)
    (sourceID destID : Z) (amount : Decimal) {struct n}
    : M W (result Transaction) :=
  match n with
  | O =>
      ret (Err (WrapError CodeTransactionFailed
                  "transfer failed after retries" lastErr))
  | S n' =>
      done <- backoff attempt ;;
      match done with
      | Some k => ret (Err (ctxErr k))
      | None =>
          r <- executeTransfer sourceID destID amount ;;
          match r with
          | Ok transaction => ret (Ok transaction)
          | Err err =>
              if negb (IsRetryable (Some err))
              then ret (Err err)
              else retryLoop n' (attempt + 1) (Some err)
                             sourceID destID amount
          end
      end
  end.

(** [Transfer].  The loop runs for [attempt] = 0, ..., [MaxRetries]:
    [MaxRetries + 1] iterations, none when [MaxRetries] is negative. *)
Definition Transfer (req : CreateTransactionRequest)
    : M W (result Transaction) :=
  if req_SourceAccountID req =? req_DestinationAccountID req
  then ret (Err ErrSameAccount)
  else
    match ParseMoney (req_Amount req) with
    | Err _ => ret (Err ErrInvalidAmount)
    | Ok amount =>
        if LessThanOrEqual amount Zero
        then ret (Err ErrInvalidAmount)
        else retryLoop (Z.to_nat (MaxRetries config + 1)) 0 None
                       (req_SourceAccountID req)
                       (req_DestinationAccountID req) amount
    end.

(** [GetTransaction]. *)
Definition GetTransaction (transactionID : Z) : M W (result Transaction) :=
  call (GetByID transactionID) (EvGetByID transactionID).

(** [GetAccountTransactions]. *)
Definition GetAccountTransactions (accountID limit offset : Z)
    : M W (result (list Transaction)) :=
  let limit := if limit <=? 0 then DefaultPageSize else limit in
  let limit := if limit >? MaxPageSize then MaxPageSize else limit in
  let offset := if offset <? 0 then 0 else offset in
  call (GetByAccountID accountID limit offset)
       (EvGetByAccountID accountID limit offset).

End Engine.

End service.

Import service.

(* ================================================================== *)
(** * Package [mocks]: the in-memory doubles *)
(* ================================================================== *)

Module mocks.

(** [MockTx]: a transaction handle whose [Commit] and [Rollback] do
    nothing and return [nil]. *)
Inductive MockTx : Type := mkMockTx.

(** The fields of [MockAccountRepository] and
    [MockTransactionRepository], and the caller's context.  The maps are
    association lists, the entry nearest the head being the current one.
    [deadlocks] stands for the hook of the retry test: that many calls of
    [GetByIDForUpdate] to come fail with a deadlock. *)
Record World : Type := mkWorld {
  accounts : list (Z * Account);
  transactions : list (Z * Transaction);
  nextID : Z;
  GetByIDForUpdateError : option error;
  UpdateBalanceError : option error;
  BeginTxError : option error;
  CreateError : option error;
  GetByIDError : option error;
  GetByAccountIDError : option error;
  deadlocks : nat;
  ctxDone : option ContextErr
}.

Fixpoint lookup {A : Type} (id : Z) (m : list (Z * A)) : option A :=
  match m with
  | [] => None
  | (k, a) :: m' => if k =? id then Some a else lookup id m'
  end.

Definition NewWorld : World :=
  mkWorld [] [] 1 None None None None None None O None.

Definition with_accounts (w : World) (m : list (Z * Account)) : World :=
  mkWorld m (transactions w) (nextID w) (GetByIDForUpdateError w)
    (UpdateBalanceError w) (BeginTxError w) (CreateError w)
    (GetByIDError w) (GetByAccountIDError w) (deadlocks w) (ctxDone w).

Definition with_deadlocks (w : World) (n : nat) : World :=
  mkWorld (accounts w) (transactions w) (nextID w) (GetByIDForUpdateError w)
    (UpdateBalanceError w) (BeginTxError w) (CreateError w)
    (GetByIDError w) (GetByAccountIDError w) n (ctxDone w).

(** [SetAccount]. *)
Definition SetAccount (acc : Account) (w : World) : World :=
  with_accounts w ((AccountID acc, acc) :: accounts w).

Definition mockBeginTx (w : World) : result MockTx * World :=
  match BeginTxError w with
  | Some err => (Err err, w)
  | None => (Ok mkMockTx, w)
  end.

Definition mockGetByIDForUpdate (tx : MockTx) (id : Z) (w : World)
    : result Account * World :=
  match deadlocks w with
  | S n => (Err (errorString "deadlock detected"), with_deadlocks w n)
  | O =>
      match GetByIDForUpdateError w with
      | Some err => (Err err, w)
      | None =>
          match lookup id (accounts w) with
          | None => (Err ErrAccountNotFound, w)
          | Some acc => (Ok (mkAccount (AccountID acc) (Balance acc) 0 0), w)
          end
      end
  end.

Definition mockUpdateBalance (tx : MockTx) (id : Z) (balance : Decimal)
    (w : World) : option error * World :=
  match UpdateBalanceError w with
  | Some err => (Some err, w)
  | None =>
      match lookup id (accounts w) with
      | None => (Some ErrAccountNotFound, w)
      | Some acc =>
          (None,
           with_accounts w
             ((id, mkAccount (AccountID acc) balance
                     (Account_CreatedAt acc) (UpdatedAt acc))
              :: accounts w))
      end
  end.

Definition mockCreate (tx : MockTx) (txn : Transaction) (w : World)
    : result (Z * Z) * World :=
  match CreateError w with
  | Some err => (Err err, w)
  | None =>
      let id := nextID w in
      (Ok (id, CreatedAt txn),
       mkWorld (accounts w)
         ((id, mkTransaction id (SourceAccountID txn)
                 (DestinationAccountID txn) (Amount txn) 0)
          :: transactions w)
         (id + 1) (GetByIDForUpdateError w) (UpdateBalanceError w)
         (BeginTxError w) (CreateError w) (GetByIDError w)
         (GetByAccountIDError w) (deadlocks w) (ctxDone w))
  end.

Definition mockGetByID (id : Z) (w : World) : result Transaction * World :=
  match GetByIDError w with
  | Some err => (Err err, w)
  | None =>
      match lookup id (transactions w) with
      | None => (Err ErrTransferNotFound, w)
      | Some txn => (Ok txn, w)
      end
  end.

(** The stored transfers that touch the account, then the page
    [result[offset:end]] (the order in which Go walks a map is not fixed;
    here it is the order of the list). *)
Definition mockGetByAccountID (accountID limit offset : Z) (w : World)
    : result (list Transaction) * World :=
  match GetByAccountIDError w with
  | Some err => (Err err, w)
  | None =>
      let result :=
        filter (fun txn => (SourceAccountID txn =? accountID)
                           || (DestinationAccountID txn =? accountID))
               (map snd (transactions w)) in
      if offset >=? Z.of_nat (List.length result) then (Ok [], w)
      else (Ok (firstn (Z.to_nat limit) (skipn (Z.to_nat offset) result)), w)
  end.

#[export] Instance mockAccountRepository : AccountRepository World MockTx :=
  {| BeginTx := mockBeginTx;
     GetByIDForUpdate := mockGetByIDForUpdate;
     UpdateBalance := mockUpdateBalance |}.

#[export] Instance mockTransactionRepository
  : TransactionRepository World MockTx :=
  {| Create := mockCreate;
     GetByID := mockGetByID;
     GetByAccountID := mockGetByAccountID |}.

#[export] Instance mockPgxTx : PgxTx World MockTx :=
  {| Commit := fun _ w => (None, w);
     Rollback := fun _ w => (None, w) |}.

(** The caller's context is either live ([context.Background()]) or
    already done; a done context wins the [select]. *)
#[export] Instance mockRuntime : Runtime World :=
  {| AfterOrDone := fun _ w => (ctxDone w, w) |}.

(** The balance of an account of the mock. *)
Definition balanceOf (id : Z) (w : World) : option Decimal :=
  option_map Balance (lookup id (accounts w)).

End mocks.

(* ================================================================== *)
(** * Notions used to state the properties *)
(* ================================================================== *)

(** The coefficient of [d] when it is written with exponent [k]
    ([k <= exp d]): two decimals written with one exponent compare as
    their coefficients do. *)
Definition scaled (k : Z) (d : Decimal) : Z := value d * 10 ^ (exp d - k).


(** The balance writes of a trace: account and new balance. *)
Fixpoint writes (t : list Event) : list (Z * Decimal) :=
  match t with
  | [] => []
  | EvUpdateBalance id b _ :: t' => (id, b) :: writes t'
  | _ :: t' => writes t'
  end.



(** The reading of the backoff as an exact power of two: before the retry
    numbered [attempt] the wait is [RetryBaseDelay * 2 ^ (attempt - 1)]. *)
Definition backoff_is_exact (config : TransferServiceConfig) (attempt : Z)
    : Prop :=
  retryDelay config attempt = RetryBaseDelay config * 2 ^ (attempt - 1).

(* ================================================================== *)
(** * Worlds and requests of the examples *)
(* ================================================================== *)

Module tests.

Import mocks.

(** A parser of the plain notation of amounts (an optional sign, digits,
    at most one point), enough to run the engine on the texts of the
    test suites. *)
Definition digit (c : ascii) : option Z :=
  let n := nat_of_ascii c in
  if (Nat.leb 48 n && Nat.leb n 57)%bool
  then Some (Z.of_nat n - 48) else None.

(** Reads [s] as a run of digits after [acc]; [pt] is the number of
    digits met since the point, if one was met. *)
Fixpoint digits (s : string) (acc : Z) (pt : option Z) (seen : bool)
    : option (Z * Z) :=
  match s with
  | EmptyString =>
      if seen then Some (acc, match pt with Some k => - k | None => 0 end)
      else None
  | String c s' =>
      if Ascii.eqb c "."%char
      then match pt with
           | Some _ => None
           | None => digits s' acc (Some 0) seen
           end
      else match digit c with
           | None => None
           | Some v =>
               digits s' (10 * acc + v)
                      (option_map (fun k => k + 1) pt) true
           end
  end.

Definition plainNewFromString (s : string) : result Decimal :=
  let bad := Err (errorString ("can't convert " ++ s ++ " to decimal")) in
  match s with
  | String "-"%char s' =>
      match digits s' 0 None false with
      | Some (v, e) => Ok (New (- v) e)
      | None => bad
      end
  | String "+"%char s' =>
      match digits s' 0 None false with
      | Some (v, e) => Ok (New v e)
      | None => bad
      end
  | _ =>
      match digits s 0 None false with
      | Some (v, e) => Ok (New v e)
      | None => bad
      end
  end.

#[export] Instance plainParser : DecimalParser :=
  {| NewFromString := plainNewFromString |}.

Definition account (id balance : Z) : Account :=
  mkAccount id (NewFromInt balance) 0 0.

(** Accounts 1 and 2 with balances 1000 and 500. *)
Definition twoAccounts : World :=
  SetAccount (account 2 500) (SetAccount (account 1 1000) NewWorld).

(** Accounts 1 and 2 with balances 100 and 0. *)
Definition drained : World :=
  SetAccount (account 2 0) (SetAccount (account 1 100) NewWorld).

(** Every row lock fails with a deadlock. *)
Definition allDeadlocks : World :=
  mkWorld (accounts twoAccounts) [] 1
    (Some (errorString "deadlock detected")) None None None None None O None.



(** The caller's context is cancelled; the first lock deadlocks once. *)
Definition cancelled : World :=
  mkWorld (accounts twoAccounts) [] 1 None None None None None None
    1%nat (Some Canceled).

Definition request (sourceID destID : Z) (amount : string)
    : CreateTransactionRequest :=
  mkCreateTransactionRequest sourceID destID amount.

End tests.

(* ================================================================== *)
(** * Package [service]: the account service *)
(* ================================================================== *)

Record CreateAccountRequest : Type := mkCreateAccountRequest {
  car_AccountID : Z;
  car_InitialBalance : string
}.

(** The methods of [interfaces.AccountRepository] the account service
    calls.  [AccountCreate] fills in the two time stamps of the account it
    is handed; on success it returns them. *)
Class AccountStore (W : Type) : Type := {
  AccountCreate : Account -> W -> result (Z * Z) * W;
  AccountGetByID : Z -> W -> result Account * W;
  AccountExists : Z -> W -> result bool * W
}.

(** The calls of the account service, with what they returned. *)
Inductive AccountCall : Type :=
| CallExists (accountID : Z) (r : result bool)
| CallCreate (account : Account) (r : result (Z * Z))
| CallGetByID (accountID : Z) (r : result Account).

Module accountService.

(** [isDuplicateKeyError]. *)
Definition isDuplicateKeyError (err : option error) : bool :=
  match err with
  | None => false
  | Some e =>
      let errStr := Error e in
      strings.Contains errStr "duplicate key"
      || strings.Contains errStr "23505"
  end.

Section AccountService.

Context {W : Type}.
Context {parser : DecimalParser}.
Context {accountRepo : AccountStore W}.

(** [CreateAccount]. *)
Definition CreateAccount (req : CreateAccountRequest) (w : W)
    : result Account * W * list AccountCall :=
  match ParseMoney (car_InitialBalance req) with
  | Err _ => (Err ErrInvalidAmount, w, [])
  | Ok balance =>
      if LessThan balance Zero then (Err ErrInvalidAmount, w, [])
      else
        let '(r, w1) := AccountExists (car_AccountID req) w in
        let t1 := [CallExists (car_AccountID req) r] in
        match r with
        | Err err =>
            (Err (WrapError CodeDatabaseError
                    "failed to check account existence" (Some err)),
             w1, t1)
        | Ok true => (Err ErrAccountAlreadyExists, w1, t1)
        | Ok false =>
            let account := mkAccount (car_AccountID req) balance 0 0 in
            let '(c, w2) := AccountCreate account w1 in
            let t2 := t1 ++ [CallCreate account c] in
            match c with
            | Err err =>
                if isDuplicateKeyError (Some err)
                then (Err ErrAccountAlreadyExists, w2, t2)
                else (Err (WrapError CodeDatabaseError
                             "failed to create account" (Some err)),
                      w2, t2)
            | Ok (created, updated) =>
                (Ok (mkAccount (car_AccountID req) balance created updated),
                 w2, t2)
            end
        end
  end.

(** [GetAccount]. *)
Definition GetAccount (accountID : Z) (w : W)
    : result Account * W * list AccountCall :=
  let '(r, w1) := AccountGetByID accountID w in
  (r, w1, [CallGetByID accountID r]).

End AccountService.

End accountService.

(* ================================================================== *)
(** * Package [validator] *)
(* ================================================================== *)

Module validator.

Record ValidationError : Type := mkValidationError {
  Field : string;
  Message : string
}.

(** [ValidationErrors.HasErrors]. *)
Definition HasErrors (e : list ValidationError) : bool :=
  negb (Nat.eqb (List.length e) 0).

Section Validator.

Context {parser : DecimalParser}.

(** [ValidateCreateAccount]. *)
Definition ValidateCreateAccount (req : CreateAccountRequest)
    : list ValidationError :=
  let errs := [] in
  let errs :=
    if car_AccountID req <=? 0
    then errs ++ [mkValidationError "account_id" "must be a positive integer"]
    else errs in
  let errs :=
    if String.eqb (car_InitialBalance req) ""
    then errs ++ [mkValidationError "initial_balance" "is required"]
    else
      match NewFromString (car_InitialBalance req) with
      | Err _ =>
          errs ++ [mkValidationError "initial_balance"
                     "must be a valid decimal number"]
      | Ok balance =>
          if LessThan balance Zero
          then errs ++ [mkValidationError "initial_balance"
                          "cannot be negative"]
          else errs
      end in
  errs.

(** [ValidateCreateTransaction]. *)
Definition ValidateCreateTransaction (req : CreateTransactionRequest)
    : list ValidationError :=
  let errs := [] in
  let errs :=
    if req_SourceAccountID req <=? 0
    then errs ++ [mkValidationError "source_account_id"
                    "must be a positive integer"]
    else errs in
  let errs :=
    if req_DestinationAccountID req <=? 0
    then errs ++ [mkValidationError "destination_account_id"
                    "must be a positive integer"]
    else errs in
  let errs :=
    if (req_SourceAccountID req >? 0)
       && (req_DestinationAccountID req >? 0)
       && (req_SourceAccountID req =? req_DestinationAccountID req)
    then errs ++ [mkValidationError "destination_account_id"
                    "cannot be the same as source_account_id"]
    else errs in
  let errs :=
    if String.eqb (req_Amount req) ""
    then errs ++ [mkValidationError "amount" "is required"]
    else
      match NewFromString (req_Amount req) with
      | Err _ =>
          errs ++ [mkValidationError "amount" "must be a valid decimal number"]
      | Ok amount =>
          if LessThanOrEqual amount Zero
          then errs ++ [mkValidationError "amount" "must be greater than zero"]
          else errs
      end in
  errs.

End Validator.

End validator.

(* ================================================================== *)
(** * Package [handler]: from domain errors to responses *)
(* ================================================================== *)

Module handler.

Definition StatusBadRequest : Z := 400.
Definition StatusNotFound : Z := 404.
Definition StatusConflict : Z := 409.
Definition StatusUnprocessableEntity : Z := 422.
Definition StatusInternalServerError : Z := 500.

(** [mapDomainError], on the code and the message of the domain error:
    status, error code and message of the response. *)
Definition mapDomainError (Code : ErrorCode) (Message : string)
    : Z * string * string :=
  match Code with
  | CodeAccountNotFound => (StatusNotFound, code_text Code, Message)
  | CodeAccountAlreadyExists => (StatusConflict, code_text Code, Message)
  | CodeInsufficientBalance =>
      (StatusUnprocessableEntity, code_text Code, Message)
  | CodeInvalidAmount => (StatusBadRequest, code_text Code, Message)
  | CodeSameAccount => (StatusBadRequest, code_text Code, Message)
  | CodeTransferNotFound => (StatusNotFound, code_text Code, Message)
  | CodeDuplicateTransaction => (StatusConflict, code_text Code, Message)
  | CodeDatabaseError | CodeTransactionFailed | CodeInternalError =>
      (StatusInternalServerError, "internal_error",
       "An unexpected error occurred. Please try again later.")
  | _ =>
      (StatusInternalServerError, "internal_error",
       "An unexpected error occurred. Please try again later.")
  end.

End handler.

(* ================================================================== *)
(** * Package [mocks]: the account double, for the account service *)
(* ================================================================== *)

Module mockAccounts.

Import mocks.

(** The mock repository with the three error fields the account service
    can meet, beside the fields the engine meets. *)
Record AccountsWorld : Type := mkAccountsWorld {
  store : World;
  AccountCreateError : option error;
  AccountGetByIDError : option error;
  ExistsError : option error
}.

Definition with_store (aw : AccountsWorld) (w : World) : AccountsWorld :=
  mkAccountsWorld w (AccountCreateError aw) (AccountGetByIDError aw)
    (ExistsError aw).

(** [MockAccountRepository.Create]. *)
Definition mockAccountCreate (account : Account) (aw : AccountsWorld)
    : result (Z * Z) * AccountsWorld :=
  match AccountCreateError aw with
  | Some err => (Err err, aw)
  | None =>
      match lookup (AccountID account) (accounts (store aw)) with
      | Some _ => (Err ErrAccountAlreadyExists, aw)
      | None =>
          (Ok (Account_CreatedAt account, UpdatedAt account),
           with_store aw
             (with_accounts (store aw)
                ((AccountID account,
                  mkAccount (AccountID account) (Balance account) 0 0)
                 :: accounts (store aw))))
      end
  end.

(** [MockAccountRepository.GetByID]. *)
Definition mockAccountGetByID (id : Z) (aw : AccountsWorld)
    : result Account * AccountsWorld :=
  match AccountGetByIDError aw with
  | Some err => (Err err, aw)
  | None =>
      match lookup id (accounts (store aw)) with
      | None => (Err ErrAccountNotFound, aw)
      | Some acc => (Ok (mkAccount (AccountID acc) (Balance acc) 0 0), aw)
      end
  end.

(** [MockAccountRepository.Exists]. *)
Definition mockExists (id : Z) (aw : AccountsWorld)
    : result bool * AccountsWorld :=
  match ExistsError aw with
  | Some err => (Err err, aw)
  | None =>
      match lookup id (accounts (store aw)) with
      | None => (Ok false, aw)
      | Some _ => (Ok true, aw)
      end
  end.

#[export] Instance mockAccountStore : AccountStore AccountsWorld :=
  {| AccountCreate := mockAccountCreate;
     AccountGetByID := mockAccountGetByID;
     AccountExists := mockExists |}.

(** A new mock repository. *)
Definition NewAccountsWorld : AccountsWorld :=
  mkAccountsWorld NewWorld None None None.

End mockAccounts.

(* ================================================================== *)
(** * Further notions used to state the properties *)
(* ================================================================== *)

(** The records asked of the store, the commits and the rollbacks of a
    trace, each with what the call returned. *)
Fixpoint creates (t : list Event) : list (result (Z * Z)) :=
  match t with
  | [] => []
  | EvCreate _ r :: t' => r :: creates t'
  | _ :: t' => creates t'
  end.

Fixpoint commits (t : list Event) : list (option error) :=
  match t with
  | [] => []
  | EvCommit e :: t' => e :: commits t'
  | _ :: t' => commits t'
  end.

Fixpoint rollbacks (t : list Event) : list (option error) :=
  match t with
  | [] => []
  | EvRollback e :: t' => e :: rollbacks t'
  | _ :: t' => rollbacks t'
  end.

(** What [BeginTx] returned, call after call. *)
Fixpoint begins (t : list Event) : list (option error) :=
  match t with
  | [] => []
  | EvBeginTx e :: t' => e :: begins t'
  | _ :: t' => begins t'
  end.

(** The outcomes of the balance writes. *)
Fixpoint write_errors (t : list Event) : list (option error) :=
  match t with
  | [] => []
  | EvUpdateBalance _ _ e :: t' => e :: write_errors t'
  | _ :: t' => write_errors t'
  end.


(** A mock in which no failure of the engine's calls is injected. *)
Definition healthy (w : mocks.World) : Prop :=
  mocks.BeginTxError w = None /\ mocks.GetByIDForUpdateError w = None /\
  mocks.UpdateBalanceError w = None /\ mocks.deadlocks w = O.

(** The mock of the account service without injected failure. *)
Definition healthy_accounts (aw : mockAccounts.AccountsWorld) : Prop :=
  mockAccounts.AccountCreateError aw = None /\
  mockAccounts.AccountGetByIDError aw = None /\
  mockAccounts.ExistsError aw = None.

(** A transfer touches an account as its source or as its destination. *)
Definition touches (accountID : Z) (txn : Transaction) : bool :=
  (SourceAccountID txn =? accountID) || (DestinationAccountID txn =? accountID).

(* ================================================================== *)
(** * Properties of the decimal operations *)
(* ================================================================== *)

Section DecimalFacts.

Lemma pow10_pos (n : Z) : 0 <= n -> 0 < 10 ^ n.
Proof. intros Hn. apply Z.pow_pos_nonneg; lia. Qed.

Lemma pow10_split (a b : Z) :
  0 <= a -> 0 <= b -> 10 ^ (a + b) = 10 ^ a * 10 ^ b.
Proof. intros Ha Hb. now rewrite Z.pow_add_r. Qed.

Lemma scaled_rescale (k e : Z) (d : Decimal) :
  k <= e -> e <= exp d -> scaled k (rescale d e) = scaled k d.
Proof.
  intros Hk He. unfold scaled, rescale. simpl.
  replace (exp d - k) with ((exp d - e) + (e - k)) by lia.
  rewrite pow10_split by lia. ring.
Qed.

Lemma exp_Add (x y : Decimal) : exp (Add x y) = Z.min (exp x) (exp y).
Proof. reflexivity. Qed.

Lemma exp_Sub (x y : Decimal) : exp (Sub x y) = Z.min (exp x) (exp y).
Proof. reflexivity. Qed.

Lemma scaled_Add (k : Z) (x y : Decimal) :
  k <= Z.min (exp x) (exp y) ->
  scaled k (Add x y) = scaled k x + scaled k y.
Proof.
  intros Hk.
  rewrite <- (scaled_rescale k (Z.min (exp x) (exp y)) x) by lia.
  rewrite <- (scaled_rescale k (Z.min (exp x) (exp y)) y) by lia.
  unfold scaled, Add, RescalePair, rescale. simpl. ring.
Qed.

Lemma scaled_Sub (k : Z) (x y : Decimal) :
  k <= Z.min (exp x) (exp y) ->
  scaled k (Sub x y) = scaled k x - scaled k y.
Proof.
  intros Hk.
  rewrite <- (scaled_rescale k (Z.min (exp x) (exp y)) x) by lia.
  rewrite <- (scaled_rescale k (Z.min (exp x) (exp y)) y) by lia.
  unfold scaled, Sub, RescalePair, rescale. simpl. ring.
Qed.

Lemma Cmp_scaled (k : Z) (x y : Decimal) :
  k <= Z.min (exp x) (exp y) ->
  Cmp x y = Z.compare (scaled k x) (scaled k y).
Proof.
  intros Hk.
  rewrite <- (scaled_rescale k (Z.min (exp x) (exp y)) x) by lia.
  rewrite <- (scaled_rescale k (Z.min (exp x) (exp y)) y) by lia.
  unfold Cmp, RescalePair, scaled, rescale. simpl.
  apply Zmult_compare_compat_r.
  apply Z.lt_gt, pow10_pos. lia.
Qed.

Lemma Equal_scaled (k : Z) (x y : Decimal) :
  k <= Z.min (exp x) (exp y) ->
  Equal x y = (scaled k x =? scaled k y).
Proof.
  intros Hk. unfold Equal. rewrite (Cmp_scaled k) by assumption.
  now rewrite Z.eqb_compare.
Qed.

(** What is taken from the source is what is given to the destination. *)
Lemma Add_Sub_conserves (s d a : Decimal) :
  Equal (Add (Sub s a) (Add d a)) (Add s d) = true.
Proof.
  set (k := Z.min (Z.min (exp s) (exp d)) (exp a)).
  rewrite (Equal_scaled k) by (rewrite !exp_Add, exp_Sub; unfold k; lia).
  rewrite (scaled_Add k (Sub s a)) by (rewrite exp_Add, exp_Sub; unfold k; lia).
  rewrite (scaled_Sub k), !(scaled_Add k) by (unfold k; lia).
  apply Z.eqb_eq. ring.
Qed.

Lemma Cmp_Eq_Sub_zero (s a : Decimal) :
  Cmp s a = Eq -> value (Sub s a) = 0.
Proof.
  unfold Cmp, Sub. destruct (RescalePair s a) as [rd rd2]. simpl.
  intros E. apply Z.compare_eq in E. lia.
Qed.

Lemma LessThanOrEqual_Zero (d : Decimal) :
  LessThanOrEqual d Zero = (value d <=? 0).
Proof.
  unfold LessThanOrEqual.
  rewrite (Cmp_scaled (Z.min (exp d) 1))
    by (change (exp Zero) with 1; lia).
  unfold scaled. change (value Zero) with 0. rewrite Z.mul_0_l.
  assert (P : 0 < 10 ^ (exp d - Z.min (exp d) 1)) by (apply pow10_pos; lia).
  set (p := 10 ^ (exp d - Z.min (exp d) 1)) in *.
  destruct (Z.leb_spec (value d) 0) as [L | L];
    destruct (value d * p ?= 0) eqn:E; try reflexivity.
  - change (value d * p > 0) in E. nia.
  - apply Z.compare_eq in E. nia.
  - change (value d * p < 0) in E. nia.
Qed.

End DecimalFacts.

(* ================================================================== *)
(** * Properties of the error classifier *)
(* ================================================================== *)

Section ClassifierFacts.



(** A finished context's error is no domain error. *)
Lemma ctxErr_not_domain (k : ContextErr) :
  IsDomainError (Some (ctxErr k)) = None.
Proof. reflexivity. Qed.


End ClassifierFacts.

(* ================================================================== *)
(** * Properties of the transfer engine *)
(* ================================================================== *)

(** Unfolds the plumbing of computations. *)
Ltac engine_step :=
  cbv beta iota zeta delta [bind call ret] in *;
  cbn [fst snd err_of app] in *.

(** Runs every port call met in the goal on each of its outcomes. *)
Ltac split_calls :=
  repeat (engine_step;
          match goal with
          | |- context [BeginTx ?w] =>
              destruct (BeginTx w) as [[?|?] ?] eqn:?
          | |- context [GetByIDForUpdate ?tx ?id ?w] =>
              destruct (GetByIDForUpdate tx id w) as [[?|?] ?] eqn:?
          | |- context [UpdateBalance ?tx ?id ?b ?w] =>
              destruct (UpdateBalance tx id b w) as [[?|] ?] eqn:?
          | |- context [Create ?tx ?txn ?w] =>
              destruct (Create tx txn w) as [[[? ?]|?] ?] eqn:?
          | |- context [Commit ?tx ?w] =>
              destruct (Commit tx w) as [[?|] ?] eqn:?
          | |- context [Rollback ?tx ?w] =>
              destruct (Rollback tx w) as [? ?] eqn:?
          | |- context [AfterOrDone ?d ?w] =>
              destruct (AfterOrDone d w) as [[?|] ?] eqn:?
          | |- context [assignRoles ?f ?s ?a ?b] =>
              destruct (assignRoles f s a b) as [? ?] eqn:?
          | |- context [LessThan ?x ?y] =>
              destruct (LessThan x y) eqn:?
          end);
  engine_step.

Section EngineFacts.

Context {W Tx : Type}.
Context {parser : DecimalParser}.
Context {accountRepo : AccountRepository W Tx}.
Context {transactionRepo : TransactionRepository W Tx}.
Context {pgxTx : PgxTx W Tx}.
Context {runtime : Runtime W}.

Variable config : TransferServiceConfig.

Lemma lockOrder_min_max (sourceID destID : Z) :
  lockOrder sourceID destID = (Z.min sourceID destID, Z.max sourceID destID).
Proof.
  unfold lockOrder. destruct (Z.gtb_spec sourceID destID).
  - now rewrite Z.min_r, Z.max_l by lia.
  - now rewrite Z.min_l, Z.max_r by lia.
Qed.



Lemma assignRoles_cases (sourceID destID : Z) (lo hi src dst : Account) :
  assignRoles (Z.min sourceID destID) sourceID lo hi = (src, dst) ->
  (src = lo /\ dst = hi /\
   Z.min sourceID destID = sourceID /\ Z.max sourceID destID = destID)
  \/ (src = hi /\ dst = lo /\
      Z.max sourceID destID = sourceID /\ Z.min sourceID destID = destID).
Proof.
  unfold assignRoles.
  destruct (Z.eqb_spec (Z.min sourceID destID) sourceID) as [E | E];
    intros H; injection H as <- <-; [left | right]; repeat split; lia.
Qed.

(** The shape of every attempt: what was locked and what was written. *)
Lemma executeTransfer_shape
    (sourceID destID : Z) (amount : Decimal) (w w' : W)
    (res : result Transaction) (t : list Event) :
  executeTransfer sourceID destID amount w = (res, w', t) ->
  let lo := Z.min sourceID destID in
  let hi := Z.max sourceID destID in
  (locks t = [] /\ writes t = [])
  \/ (locks t = [lo] /\ writes t = [])
  \/ (locks t = [lo; hi] /\
      (writes t = []
       \/ exists sourceAccount destAccount,
            In (EvGetByIDForUpdate sourceID (Ok sourceAccount)) t /\
            In (EvGetByIDForUpdate destID (Ok destAccount)) t /\
            let newSourceBalance := Sub (Balance sourceAccount) amount in
            let newDestBalance := Add (Balance destAccount) amount in
            (writes t = [(AccountID sourceAccount, newSourceBalance)]
             \/ writes t = [(AccountID sourceAccount, newSourceBalance);
                            (AccountID destAccount, newDestBalance)]))).
Proof.
  intros Hrun lo hi.
  unfold executeTransfer, transferInTx in Hrun.
  rewrite lockOrder_min_max in Hrun. fold lo hi in Hrun.
  revert Hrun. split_calls.
  all: intros Hrun; injection Hrun as <- <- <-.
  all: cbn [locks writes].
  all: try (left; split; reflexivity).
  all: try (right; left; split; reflexivity).
  all: right; right; split; [reflexivity |].
  all: try (left; reflexivity).
  all: right.
  all: match goal with
       | H : assignRoles _ _ _ _ = (?s, ?d) |- _ =>
           exists s, d;
           destruct (assignRoles_cases _ _ _ _ _ _ H)
             as [(-> & -> & E1 & E2) | (-> & -> & E1 & E2)]
       end.
  all: unfold lo, hi; rewrite E1, E2; cbn [In]; auto 10.
Qed.

(** A successful attempt has written both balances. *)
Lemma executeTransfer_ok_writes
    (sourceID destID : Z) (amount : Decimal) (w w' : W)
    (txn : Transaction) (t : list Event) :
  executeTransfer sourceID destID amount w = (Ok txn, w', t) ->
  List.length (writes t) = 2%nat.
Proof.
  unfold executeTransfer, transferInTx.
  destruct (lockOrder sourceID destID) as [firstID secondID].
  split_calls.
  all: intros Hrun; try discriminate Hrun.
  injection Hrun as <- <- <-. reflexivity.
Qed.


(** C1. Every attempt that reaches the balance-update step writes
    [source - amount] to the source row and then [dest + amount] to the
    destination row, the two balances being those of the rows it
    locked; the two new balances add up to the two locked ones, and an
    attempt that succeeds has written both. *)
Theorem transfer_conserves_value
    (sourceID destID : Z) (amount : Decimal) (w w' : W)
    (res : result Transaction) (t : list Event) :
  executeTransfer sourceID destID amount w = (res, w', t) ->
  writes t <> [] ->
  exists sourceAccount destAccount,
    In (EvGetByIDForUpdate sourceID (Ok sourceAccount)) t /\
    In (EvGetByIDForUpdate destID (Ok destAccount)) t /\
    let newSourceBalance := Sub (Balance sourceAccount) amount in
    let newDestBalance := Add (Balance destAccount) amount in
    (writes t = [(AccountID sourceAccount, newSourceBalance)]
     \/ writes t = [(AccountID sourceAccount, newSourceBalance);
                    (AccountID destAccount, newDestBalance)]) /\
    (forall txn, res = Ok txn ->
       writes t = [(AccountID sourceAccount, newSourceBalance);
                   (AccountID destAccount, newDestBalance)]) /\
    Equal (Add newSourceBalance newDestBalance)
          (Add (Balance sourceAccount) (Balance destAccount)) = true.
Proof.
  intros Hrun Hw.
  destruct (executeTransfer_shape _ _ _ _ _ _ _ Hrun)
    as [[_ Hn] | [[_ Hn] | [_ [Hn | (sa & da & Hs & Hd & Hwr)]]]];
    try (exfalso; exact (Hw Hn)).
  exists sa, da. cbv zeta in *.
  repeat split; try assumption.
  - intros txn ->.
    pose proof (executeTransfer_ok_writes _ _ _ _ _ _ _ Hrun) as Hlen.
    destruct Hwr as [Hwr | Hwr]; [| exact Hwr].
    rewrite Hwr in Hlen. discriminate Hlen.
  - apply Add_Sub_conserves.
Qed.


(** ** The retry loop *)

(** One iteration of the loop. *)
Lemma retryLoop_step (n : nat) (attempt : Z) (lastErr : option error)
    (sourceID destID : Z) (amount : Decimal) (w : W) :
  retryLoop config (S n) attempt lastErr sourceID destID amount w =
  let '(done, w1, tw) := backoff config attempt w in
  match done with
  | Some k => (Err (ctxErr k), w1, tw)
  | None =>
      let '(r, w2, t) := executeTransfer sourceID destID amount w1 in
      match r with
      | Ok transaction => (Ok transaction, w2, tw ++ t)
      | Err err =>
          if IsRetryable (Some err)
          then
            let '(r', w3, t') :=
              retryLoop config n (attempt + 1) (Some err)
                        sourceID destID amount w2 in
            (r', w3, tw ++ t ++ t')
          else (Err err, w2, tw ++ t)
      end
  end.
Proof.
  cbn [retryLoop]. unfold bind at 1.
  destruct (backoff config attempt w) as [[[k |] w1] tw].
  - unfold ret. now rewrite app_nil_r.
  - unfold bind at 1.
    destruct (executeTransfer sourceID destID amount w1) as [[[txn | err] w2] t].
    + unfold ret. now rewrite app_nil_r.
    + destruct (IsRetryable (Some err)); cbn [negb].
      * destruct (retryLoop config n (attempt + 1) (Some err)
                    sourceID destID amount w2) as [[r' w3] t'].
        reflexivity.
      * unfold ret. now rewrite app_nil_r.
Qed.






(** ** Failures inside an attempt *)



(** C5. When the balance of the locked source row is strictly below
    the amount, the attempt returns [ErrInsufficientBalance] after the
    two locks and the rollback, with no balance written; that error is
    not retryable, and the loop returns it without a further attempt. *)
Theorem insufficient_balance_is_fatal
    (n : nat) (attempt : Z) (lastErr : option error)
    (sourceID destID : Z) (amount : Decimal)
    (w0 w w1 w2 w3 w4 : W) (tw : list Event) (tx : Tx)
    (first second : Account) (re : option error) :
  backoff config attempt w0 = (None, w, tw) ->
  BeginTx w = (Ok tx, w1) ->
  GetByIDForUpdate tx (fst (lockOrder sourceID destID)) w1 = (Ok first, w2) ->
  GetByIDForUpdate tx (snd (lockOrder sourceID destID)) w2 = (Ok second, w3) ->
  LessThan
    (Balance (fst (assignRoles (fst (lockOrder sourceID destID)) sourceID
                     first second)))
    amount = true ->
  Rollback tx w3 = (re, w4) ->
  let t := [EvBeginTx None;
            EvGetByIDForUpdate (fst (lockOrder sourceID destID)) (Ok first);
            EvGetByIDForUpdate (snd (lockOrder sourceID destID)) (Ok second);
            EvRollback re] in
  executeTransfer sourceID destID amount w
    = (Err ErrInsufficientBalance, w4, t) /\
  writes t = [] /\
  IsRetryable (Some ErrInsufficientBalance) = false /\
  retryLoop config (S n) attempt lastErr sourceID destID amount w0
    = (Err ErrInsufficientBalance, w4, tw ++ t).
Proof.
  intros Hb Hbegin Hl1 Hl2 Hlt Hrb t.
  assert (Hx : executeTransfer sourceID destID amount w
               = (Err ErrInsufficientBalance, w4, t)).
  { unfold executeTransfer, transferInTx.
    destruct (lockOrder sourceID destID) as [firstID secondID].
    cbn [fst snd] in *. engine_step.
    rewrite Hbegin. engine_step. rewrite Hl1. engine_step.
    rewrite Hl2. engine_step.
    destruct (assignRoles firstID sourceID first second) as [sa da].
    cbn [fst] in Hlt. rewrite Hlt. engine_step. rewrite Hrb.
    reflexivity. }
  split; [exact Hx |]. split; [reflexivity |]. split; [reflexivity |].
  now rewrite retryLoop_step, Hb, Hx.
Qed.

(** C10. When the balance of the locked source row equals the amount,
    the sufficiency check passes; the balance written to the source row
    is zero, hence not negative; and the attempt succeeds with the
    recorded transfer when the store accepts the two writes, the record
    and the commit. *)
Theorem exact_balance_drains_to_zero
    (sourceID destID : Z) (amount : Decimal)
    (w w1 w2 w3 w4 w5 w6 w7 w8 : W) (tx : Tx)
    (first second : Account) (id created : Z) (re : option error) :
  BeginTx w = (Ok tx, w1) ->
  GetByIDForUpdate tx (fst (lockOrder sourceID destID)) w1 = (Ok first, w2) ->
  GetByIDForUpdate tx (snd (lockOrder sourceID destID)) w2 = (Ok second, w3) ->
  let sourceAccount :=
    fst (assignRoles (fst (lockOrder sourceID destID)) sourceID
           first second) in
  let destAccount :=
    snd (assignRoles (fst (lockOrder sourceID destID)) sourceID
           first second) in
  let newSourceBalance := Sub (Balance sourceAccount) amount in
  let newDestBalance := Add (Balance destAccount) amount in
  let transaction := mkTransaction 0 sourceID destID amount 0 in
  Equal (Balance sourceAccount) amount = true ->
  UpdateBalance tx (AccountID sourceAccount) newSourceBalance w3
    = (None, w4) ->
  UpdateBalance tx (AccountID destAccount) newDestBalance w4 = (None, w5) ->
  Create tx transaction w5 = (Ok (id, created), w6) ->
  Commit tx w6 = (None, w7) ->
  Rollback tx w7 = (re, w8) ->
  LessThan (Balance sourceAccount) amount = false /\
  IsZero newSourceBalance = true /\
  IsNegative newSourceBalance = false /\
  executeTransfer sourceID destID amount w
    = (Ok (mkTransaction id sourceID destID amount created), w8,
       [EvBeginTx None;
        EvGetByIDForUpdate (fst (lockOrder sourceID destID)) (Ok first);
        EvGetByIDForUpdate (snd (lockOrder sourceID destID)) (Ok second);
        EvUpdateBalance (AccountID sourceAccount) newSourceBalance None;
        EvUpdateBalance (AccountID destAccount) newDestBalance None;
        EvCreate transaction (Ok (id, created));
        EvCommit None;
        EvRollback re]).
Proof.
  intros Hbegin Hl1 Hl2 sourceAccount destAccount newSourceBalance
         newDestBalance transaction Heq Hu1 Hu2 Hc Hcommit Hrb.
  assert (Hcmp : Cmp (Balance sourceAccount) amount = Eq).
  { unfold Equal in Heq.
    destruct (Cmp (Balance sourceAccount) amount); [reflexivity | |];
      discriminate Heq. }
  assert (Hlt : LessThan (Balance sourceAccount) amount = false).
  { unfold LessThan. now rewrite Hcmp. }
  pose proof (Cmp_Eq_Sub_zero _ _ Hcmp) as Hz. fold newSourceBalance in Hz.
  split; [exact Hlt |].
  split; [unfold IsZero; now rewrite Hz |].
  split; [unfold IsNegative; now rewrite Hz |].
  unfold executeTransfer, transferInTx.
  subst sourceAccount destAccount newSourceBalance newDestBalance transaction.
  destruct (lockOrder sourceID destID) as [firstID secondID].
  cbn [fst snd] in *. engine_step.
  rewrite Hbegin. engine_step. rewrite Hl1. engine_step.
  rewrite Hl2. engine_step.
  destruct (assignRoles firstID sourceID first second) as [sa da].
  cbn [fst snd] in *. rewrite Hlt. engine_step.
  rewrite Hu1. engine_step. rewrite Hu2. engine_step.
  rewrite Hc. engine_step. rewrite Hcommit. engine_step. rewrite Hrb.
  reflexivity.
Qed.

(** ** Validation *)

(** C6. A request whose source and destination are the same account
    is refused with [ErrSameAccount] whatever its amount text: no port
    is called and the collaborators are left as they were. *)
Theorem same_account_refused_without_store_access
    (req : CreateTransactionRequest) (w : W) :
  req_SourceAccountID req = req_DestinationAccountID req ->
  Transfer config req w = (Err ErrSameAccount, w, []) /\
  IsDomainError (Some ErrSameAccount) = Some CodeSameAccount.
Proof.
  intros Heq. unfold Transfer. rewrite Heq, Z.eqb_refl. now split.
Qed.

(** C7. Between distinct accounts, an amount text that is empty, that
    the decimal parser rejects, or that parses to a value at most zero is
    refused with [ErrInvalidAmount]: no port is called and the
    collaborators are left as they were. *)
Theorem invalid_amount_refused_without_store_access
    (req : CreateTransactionRequest) (w : W) :
  req_SourceAccountID req <> req_DestinationAccountID req ->
  req_Amount req = ""
  \/ (exists err, NewFromString (req_Amount req) = Err err)
  \/ (exists d, NewFromString (req_Amount req) = Ok d /\ value d <= 0) ->
  Transfer config req w = (Err ErrInvalidAmount, w, []) /\
  IsDomainError (Some ErrInvalidAmount) = Some CodeInvalidAmount.
Proof.
  intros Hne Hbad. split; [| reflexivity].
  unfold Transfer.
  destruct (Z.eqb_spec (req_SourceAccountID req)
                       (req_DestinationAccountID req)) as [E | _];
    [contradiction |].
  unfold ParseMoney.
  destruct (String.eqb_spec (req_Amount req) "") as [E | Hs]; [reflexivity |].
  destruct Hbad as [E | [(err & Herr) | (d & Hd & Hle)]].
  - contradiction.
  - now rewrite Herr.
  - rewrite Hd, LessThanOrEqual_Zero.
    destruct (Z.leb_spec (value d) 0); [reflexivity | lia].
Qed.

(** ** Backoff and cancellation *)

Lemma wrap_in_range (z : Z) : int64.in_range z -> int64.wrap z = z.
Proof.
  unfold int64.in_range, int64.min, int64.max, int64.wrap. intros Hz.
  rewrite Z.mod_small; lia.
Qed.

(** Up to the 63rd retry the shift is the power of two; the product is
    exact as long as it fits a duration. *)
Lemma retryDelay_exact (attempt : Z) :
  0 < attempt <= 63 ->
  int64.in_range (RetryBaseDelay config * 2 ^ (attempt - 1)) ->
  retryDelay config attempt = RetryBaseDelay config * 2 ^ (attempt - 1).
Proof.
  intros Ha Hfit.
  unfold retryDelay, int64.mul, int64.shl, int64.to_uint.
  rewrite (Z.mod_small (attempt - 1)) by lia.
  destruct (Z.ltb_spec (attempt - 1) 64) as [_ | Hge]; [| lia].
  rewrite Z.shiftl_1_l.
  assert (Hp : 0 < 2 ^ (attempt - 1) <= 2 ^ 62).
  { split; [apply Z.pow_pos_nonneg; lia |].
    apply Z.pow_le_mono_r; lia. }
  rewrite (wrap_in_range (2 ^ (attempt - 1))).
  - now apply wrap_in_range.
  - unfold int64.in_range, int64.min, int64.max. lia.
Qed.

(** C8, as the code has it. A retry starts by waiting for
    [retryDelay]: the base delay times [1 << (attempt - 1)] in 64-bit
    duration arithmetic, which is [RetryBaseDelay * 2 ^ (attempt - 1)]
    whenever [attempt <= 63] and that product fits a duration.  If the
    caller's context ends the wait, the loop returns the context's own
    error, no domain error, with no call made after the wait. *)
Theorem backoff_waits_then_honours_cancellation
    (n : nat) (attempt : Z) (lastErr : option error)
    (sourceID destID : Z) (amount : Decimal) (w : W) :
  attempt > 0 ->
  (attempt <= 63 ->
   int64.in_range (RetryBaseDelay config * 2 ^ (attempt - 1)) ->
   retryDelay config attempt = RetryBaseDelay config * 2 ^ (attempt - 1)) /\
  (forall r w1,
      AfterOrDone (retryDelay config attempt) w = (r, w1) ->
      exists res w' t,
        retryLoop config (S n) attempt lastErr sourceID destID amount w
        = (res, w', EvWait (retryDelay config attempt) r :: t) /\
        (forall k, r = Some k ->
           res = Err (ctxErr k) /\ w' = w1 /\ t = [] /\
           IsDomainError (Some (ctxErr k)) = None)).
Proof.
  intros Ha. split.
  - intros H63 Hfit. apply retryDelay_exact; [lia | assumption].
  - intros r w1 Hwait. rewrite retryLoop_step.
    unfold backoff. destruct (Z.gtb_spec attempt 0) as [_ | Hle]; [| lia].
    unfold call. cbv zeta. rewrite Hwait.
    destruct r as [k |].
    + exists (Err (ctxErr k)), w1, []. split; [reflexivity |].
      intros k' Hk. injection Hk as <-. now repeat split.
    + destruct (executeTransfer sourceID destID amount w1)
        as [[[txn | err] w2] t1].
      * exists (Ok txn), w2, t1. split; [reflexivity | discriminate].
      * destruct (IsRetryable (Some err)).
        -- destruct (retryLoop config n (attempt + 1) (Some err)
                       sourceID destID amount w2) as [[r' w3] t'].
           exists r', w3, (t1 ++ t'). split; [reflexivity | discriminate].
        -- exists (Err err), w2, t1. split; [reflexivity | discriminate].
Qed.

(** ** Reading transfers *)

(** C9. [GetAccountTransactions] asks the repository once, with limit
    20 when the requested limit is at most zero, 100 when it exceeds 100
    and the requested limit otherwise, and with a negative offset
    replaced by zero; what the repository returns is returned as it is,
    so an empty page is a success. *)
Theorem page_bounds_and_empty_page
    (accountID limit offset : Z) (w : W) :
  exists l o,
    GetAccountTransactions accountID limit offset w
    = (let '(r, w1) := GetByAccountID accountID l o w in
       (r, w1, [EvGetByAccountID accountID l o r])) /\
    (limit <= 0 -> l = 20) /\
    (limit > 100 -> l = 100) /\
    (0 < limit <= 100 -> l = limit) /\
    (offset < 0 -> o = 0) /\
    (0 <= offset -> o = offset) /\
    (forall w1,
        GetByAccountID accountID l o w = (Ok [], w1) ->
        GetAccountTransactions accountID limit offset w
        = (Ok [], w1, [EvGetByAccountID accountID l o (Ok [])])).
Proof.
  unfold GetAccountTransactions, DefaultPageSize, MaxPageSize.
  eexists _, _. split; [reflexivity |].
  repeat split.
  - intros H. destruct (Z.leb_spec limit 0); [reflexivity | lia].
  - intros H. destruct (Z.leb_spec limit 0); [lia |].
    destruct (Z.gtb_spec limit 100); [reflexivity | lia].
  - intros H. destruct (Z.leb_spec limit 0); [lia |].
    destruct (Z.gtb_spec limit 100); [lia | reflexivity].
  - intros H. destruct (Z.ltb_spec offset 0); [reflexivity | lia].
  - intros H. destruct (Z.ltb_spec offset 0); [lia | reflexivity].
  - intros w1 H. unfold call. now rewrite H.
Qed.

End EngineFacts.

(* ================================================================== *)
(** * The properties on the test doubles *)
(* ================================================================== *)

Section OnTheMocks.

Import mocks tests.

(** 100 from account 1 (1000) to account 2 (500): 900 and 600 are
    written, and 900 + 600 = 1000 + 500. *)
Lemma transfer_conserves_value_witness :
  let run := executeTransfer 1 2 (NewFromInt 100) twoAccounts in
  writes (snd run) <> [] /\
  exists sourceAccount destAccount,
    In (EvGetByIDForUpdate 1 (Ok sourceAccount)) (snd run) /\
    In (EvGetByIDForUpdate 2 (Ok destAccount)) (snd run) /\
    let newSourceBalance := Sub (Balance sourceAccount) (NewFromInt 100) in
    let newDestBalance := Add (Balance destAccount) (NewFromInt 100) in
    (writes (snd run) = [(AccountID sourceAccount, newSourceBalance)]
     \/ writes (snd run) = [(AccountID sourceAccount, newSourceBalance);
                            (AccountID destAccount, newDestBalance)]) /\
    (forall txn, fst (fst run) = Ok txn ->
       writes (snd run) = [(AccountID sourceAccount, newSourceBalance);
                           (AccountID destAccount, newDestBalance)]) /\
    Equal (Add newSourceBalance newDestBalance)
          (Add (Balance sourceAccount) (Balance destAccount)) = true.
Proof.
  intros run.
  assert (Hw : writes (snd run) <> []) by (vm_compute; discriminate).
  split; [exact Hw |].
  exact (transfer_conserves_value 1 2 (NewFromInt 100) twoAccounts
           (snd (fst run)) (fst (fst run)) (snd run) eq_refl Hw).
Defined.





(** 2000 asked of an account holding 1000. *)
Lemma insufficient_balance_is_fatal_witness :
  let first := mkAccount 1 (NewFromInt 1000) 0 0 in
  let second := mkAccount 2 (NewFromInt 500) 0 0 in
  let t := [EvBeginTx None; EvGetByIDForUpdate 1 (Ok first);
            EvGetByIDForUpdate 2 (Ok second); EvRollback None] in
  LessThan (Balance first) (NewFromInt 2000) = true /\
  executeTransfer 1 2 (NewFromInt 2000) twoAccounts
    = (Err ErrInsufficientBalance, twoAccounts, t) /\
  writes t = [] /\
  IsRetryable (Some ErrInsufficientBalance) = false /\
  retryLoop DefaultTransferConfig 4 0 None 1 2 (NewFromInt 2000) twoAccounts
    = (Err ErrInsufficientBalance, twoAccounts, t).
Proof.
  intros first second t.
  split; [reflexivity |].
  exact (insufficient_balance_is_fatal DefaultTransferConfig 3 0 None 1 2
           (NewFromInt 2000) twoAccounts twoAccounts twoAccounts
           twoAccounts twoAccounts twoAccounts [] mkMockTx first second None
           eq_refl eq_refl eq_refl eq_refl eq_refl eq_refl).
Defined.

Lemma same_account_refused_without_store_access_witness :
  req_SourceAccountID (request 1 1 "100.00")
    = req_DestinationAccountID (request 1 1 "100.00") /\
  Transfer DefaultTransferConfig (request 1 1 "100.00") twoAccounts
    = (Err ErrSameAccount, twoAccounts, []).
Proof.
  split; [reflexivity |].
  exact (proj1 (same_account_refused_without_store_access
                  DefaultTransferConfig (request 1 1 "100.00") twoAccounts
                  eq_refl)).
Defined.

(** The amount [0] parses, to a value that is not positive. *)
Lemma invalid_amount_refused_without_store_access_witness :
  NewFromString "0" = Ok (New 0 0) /\
  Transfer DefaultTransferConfig (request 1 2 "0") twoAccounts
    = (Err ErrInvalidAmount, twoAccounts, []).
Proof.
  split; [reflexivity |].
  assert (Hne : req_SourceAccountID (request 1 2 "0")
                <> req_DestinationAccountID (request 1 2 "0"))
    by (cbn; lia).
  apply (invalid_amount_refused_without_store_access
           DefaultTransferConfig (request 1 2 "0") twoAccounts Hne).
  right; right. exists (New 0 0). split; [reflexivity | cbn; lia].
Defined.

(** The second retry of the default configuration waits 200 ms; a
    cancelled caller gets [context.Canceled] and the store is not
    called. *)
Lemma backoff_waits_then_honours_cancellation_witness :
  2 > 0 /\
  retryDelay DefaultTransferConfig 2 = 200 * Millisecond /\
  retryLoop DefaultTransferConfig 2 2 None 1 2 (NewFromInt 100) cancelled
    = (Err (ctxErr Canceled), cancelled,
       [EvWait (200 * Millisecond) (Some Canceled)]).
Proof.
  assert (Hpos : 2 > 0) by lia.
  pose proof (backoff_waits_then_honours_cancellation DefaultTransferConfig
                1 2 None 1 2 (NewFromInt 100) cancelled Hpos)
    as [Hdelay Hwait].
  split; [exact Hpos |].
  split.
  - rewrite Hdelay; [reflexivity | lia | vm_compute; split; discriminate].
  - destruct (Hwait (Some Canceled) cancelled eq_refl)
      as (res & w' & t & Hrun & Hcancel).
    destruct (Hcancel Canceled eq_refl) as (-> & -> & -> & _).
    exact Hrun.
Defined.

(** An account without transfers has an empty first page. *)
Lemma page_bounds_and_empty_page_witness :
  GetAccountTransactions 1 0 (-5) twoAccounts
  = (Ok [], twoAccounts, [EvGetByAccountID 1 20 0 (Ok [])]).
Proof.
  destruct (page_bounds_and_empty_page 1 0 (-5) twoAccounts)
    as (l & o & _ & Hl & _ & _ & Ho & _ & Hempty).
  rewrite (Hl ltac:(lia)), (Ho ltac:(lia)) in Hempty.
  exact (Hempty twoAccounts eq_refl).
Defined.

(** 100 taken from an account holding exactly 100. *)
Lemma exact_balance_drains_to_zero_witness :
  Equal (NewFromInt 100) (NewFromInt 100) = true /\
  IsZero (Sub (NewFromInt 100) (NewFromInt 100)) = true /\
  fst (fst (executeTransfer 1 2 (NewFromInt 100) drained))
    = Ok (mkTransaction 1 1 2 (NewFromInt 100) 0).
Proof.
  split; [reflexivity |].
  set (first := mkAccount 1 (NewFromInt 100) 0 0).
  set (second := mkAccount 2 (NewFromInt 0) 0 0).
  set (w4 := snd (UpdateBalance mkMockTx 1 (New 0 0) drained)).
  set (w5 := snd (UpdateBalance mkMockTx 2 (New 100 0) w4)).
  set (w6 := snd (Create mkMockTx
                    (mkTransaction 0 1 2 (NewFromInt 100) 0) w5)).
  destruct (exact_balance_drains_to_zero
              (accountRepo := mockAccountRepository)
              (transactionRepo := mockTransactionRepository)
              (pgxTx := mockPgxTx)
              1 2 (NewFromInt 100)
              drained drained drained drained w4 w5 w6 w6 w6
              mkMockTx first second 1 0 None
              eq_refl eq_refl eq_refl eq_refl eq_refl eq_refl eq_refl
              eq_refl eq_refl)
    as (_ & Hz & _ & Hrun).
  split; [exact Hz |].
  now rewrite Hrun.
Defined.

(** Past the width of a duration the delay is no power of two: with the
    default base delay the 38th retry would wait a negative time, and
    with a base delay of one nanosecond the 64th a negative time and the
    65th none, as the run of 66 deadlocked attempts shows. *)
Lemma backoff_overflows :
  38 > 0 /\
  retryDelay (mkConfig 38 (100 * Millisecond)) 38 = -4702848726509551616 /\
  ~ backoff_is_exact (mkConfig 38 (100 * Millisecond)) 38 /\
  retryDelay (mkConfig 65 1) 64 = - 2 ^ 63 /\
  ~ backoff_is_exact (mkConfig 65 1) 64 /\
  retryDelay (mkConfig 65 1) 65 = 0 /\
  ~ backoff_is_exact (mkConfig 65 1) 65 /\
  nth_error
    (waits (snd (Transfer (mkConfig 65 1) (request 1 2 "100") allDeadlocks)))
    64 = Some 0.
Proof.
  repeat split; try (vm_compute; reflexivity); try lia.
  all: unfold backoff_is_exact; vm_compute; discriminate.
Qed.

End OnTheMocks.

(* ================================================================== *)
(** * The cases of the test suites, run on the model *)
(* ================================================================== *)

Section TestSuites.

Import mocks tests.

(** [TestIsRetryable]. *)
Example IsRetryable_nil : IsRetryable None = false.
Proof. reflexivity. Qed.

Example IsRetryable_deadlock :
  IsRetryable (Some (errorString "deadlock detected")) = true.
Proof. reflexivity. Qed.

Example IsRetryable_upper :
  IsRetryable (Some (errorString "DEADLOCK DETECTED")) = true.
Proof. reflexivity. Qed.

Example IsRetryable_serialize :
  IsRetryable (Some (errorString "could not serialize access")) = true.
Proof. reflexivity. Qed.

Example IsRetryable_not_found : IsRetryable (Some ErrAccountNotFound) = false.
Proof. reflexivity. Qed.

Example IsRetryable_random :
  IsRetryable (Some (errorString "random error")) = false.
Proof. reflexivity. Qed.

Example IsRetryable_timeout : IsRetryable (Some (errorString "timeout")) = true.
Proof. reflexivity. Qed.

(** [TestParseMoney], on the parser of the plain notation. *)
Example ParseMoney_cases :
  ParseMoney "100" = Ok (New 100 0) /\
  ParseMoney "100.50" = Ok (New 10050 (-2)) /\
  ParseMoney "-100" = Ok (New (-100) 0) /\
  err_of (ParseMoney "") = Some (errorString "empty amount string") /\
  (exists e, ParseMoney "abc" = Err e) /\
  (exists e, ParseMoney "$100" = Err e).
Proof. repeat split; try reflexivity; eexists; reflexivity. Qed.

(** [TestTransferService_Transfer], successful transfer: 100.00 from 1
    to 2 leaves 900 on account 1 and 600 on account 2. *)
Example Transfer_success :
  let '(res, w', t) :=
    Transfer DefaultTransferConfig (request 1 2 "100.00") twoAccounts in
  res = Ok (mkTransaction 1 1 2 (New 10000 (-2)) 0) /\
  option_map (Equal (NewFromInt 900)) (balanceOf 1 w') = Some true /\
  option_map (Equal (NewFromInt 600)) (balanceOf 2 w') = Some true /\
  attempts t = 1%nat.
Proof. vm_compute. repeat split. Qed.

Example Transfer_source_not_found :
  fst (fst (Transfer DefaultTransferConfig (request 999 2 "100.00")
              (SetAccount (account 2 500) NewWorld)))
  = Err ErrAccountNotFound.
Proof. reflexivity. Qed.

(** [TestTransferService_LockOrdering]. *)
Example Transfer_lock_ordering :
  locks (snd (Transfer DefaultTransferConfig (request 2 1 "100.00")
                twoAccounts)) = [1; 2].
Proof. reflexivity. Qed.

(** [TestTransferService_RetryOnDeadlock]: two deadlocks, then success
    at the third attempt, after waits of one and two base delays. *)
Example Transfer_retry_on_deadlock :
  let '(res, _, t) :=
    Transfer (mkConfig 3 Millisecond) (request 1 2 "100.00")
             (with_deadlocks twoAccounts 2) in
  err_of res = None /\ attempts t = 3%nat /\
  waits t = [Millisecond; 2 * Millisecond].
Proof. vm_compute. repeat split. Qed.

End TestSuites.

(* ================================================================== *)
(** * Further properties of the decimal operations *)
(* ================================================================== *)

Section DecimalSigns.

Lemma LessThan_false_Sub_nonneg (s a : Decimal) :
  LessThan s a = false -> IsNegative (Sub s a) = false.
Proof.
  unfold LessThan, Cmp, Sub, IsNegative.
  destruct (RescalePair s a) as [rd rd2]. cbn [value].
  intros H. apply Z.ltb_ge.
  destruct (value rd ?= value rd2) eqn:E; try discriminate H.
  - apply Z.compare_eq in E. lia.
  - change (value rd > value rd2) in E. lia.
Qed.

Lemma Add_nonneg (x y : Decimal) :
  IsNegative x = false -> IsNegative y = false ->
  IsNegative (Add x y) = false.
Proof.
  unfold IsNegative, Add, RescalePair, rescale. cbn [value exp].
  intros Hx Hy. apply Z.ltb_ge in Hx, Hy. apply Z.ltb_ge.
  assert (0 < 10 ^ (exp x - Z.min (exp x) (exp y)))
    by (apply pow10_pos; lia).
  assert (0 < 10 ^ (exp y - Z.min (exp x) (exp y)))
    by (apply pow10_pos; lia).
  nia.
Qed.

Lemma positive_not_negative (d : Decimal) :
  LessThanOrEqual d Zero = false -> IsNegative d = false.
Proof.
  rewrite LessThanOrEqual_Zero. unfold IsNegative.
  intros H. apply Z.leb_gt in H. apply Z.ltb_ge. lia.
Qed.

End DecimalSigns.

(* ================================================================== *)
(** * Further properties of one attempt *)
(* ================================================================== *)

Section AttemptFacts.

Context {W Tx : Type}.
Context {accountRepo : AccountRepository W Tx}.
Context {transactionRepo : TransactionRepository W Tx}.
Context {pgxTx : PgxTx W Tx}.

(** X1. When a row lock fails, the attempt returns the error of the store
    as it is, unwrapped; the failed lock is the last one asked for; no
    balance is written, no transfer recorded, nothing committed, and the
    transaction is rolled back once. *)
Theorem lock_failure_aborts_attempt
    (sourceID destID : Z) (amount : Decimal) (w w' : W)
    (res : result Transaction) (t : list Event) (id : Z) (err : error) :
  executeTransfer sourceID destID amount w = (res, w', t) ->
  In (EvGetByIDForUpdate id (Err err)) t ->
  res = Err err /\
  (exists pre, locks t = pre ++ [id]) /\
  writes t = [] /\ creates t = [] /\ commits t = [] /\
  List.length (rollbacks t) = 1%nat.
Proof.
  unfold executeTransfer, transferInTx.
  rewrite lockOrder_min_max.
  split_calls.
  all: intros Hrun Hin; injection Hrun as <- <- <-.
  all: cbn [In] in Hin.
  all: repeat match goal with
         | H : _ \/ _ |- _ => destruct H as [H | H]
         | H : False |- _ => destruct H
         end; try discriminate.
  all: injection Hin as <- <-.
  all: cbn [writes creates commits rollbacks locks List.length].
  all: repeat split; try reflexivity.
  - now exists [Z.min sourceID destID].
  - now exists [].
Qed.


(** An attempt rolls back once if its transaction was opened, and not at
    all if it was not. *)
Lemma executeTransfer_rollbacks
    (sourceID destID : Z) (amount : Decimal) (w w' : W)
    (res : result Transaction) (t : list Event) :
  executeTransfer sourceID destID amount w = (res, w', t) ->
  List.length (rollbacks t)
  = List.length (filter (fun e => match e with None => true | _ => false end)
                        (begins t)).
Proof.
  unfold executeTransfer, transferInTx.
  destruct (lockOrder sourceID destID) as [firstID secondID].
  split_calls.
  all: intros Hrun; injection Hrun as <- <- <-; reflexivity.
Qed.

(** An attempt succeeds exactly when its commit did. *)
Lemma executeTransfer_commit
    (sourceID destID : Z) (amount : Decimal) (w w' : W)
    (res : result Transaction) (t : list Event) :
  executeTransfer sourceID destID amount w = (res, w', t) ->
  match res with
  | Ok txn =>
      commits t = [None] /\
      SourceAccountID txn = sourceID /\
      DestinationAccountID txn = destID /\
      Amount txn = amount
  | Err _ => ~ In None (commits t)
  end.
Proof.
  unfold executeTransfer, transferInTx.
  destruct (lockOrder sourceID destID) as [firstID secondID].
  split_calls.
  all: intros Hrun; injection Hrun as <- <- <-.
  all: cbn [commits In]; try (now repeat split).
  all: intros [H | []]; discriminate H.
Qed.

(** What an attempt writes is not negative, as long as the destination
    row it locked is not and the amount is not. *)
Lemma executeTransfer_writes_nonneg
    (sourceID destID : Z) (amount : Decimal) (w w' : W)
    (res : result Transaction) (t : list Event) :
  executeTransfer sourceID destID amount w = (res, w', t) ->
  IsNegative amount = false ->
  (forall id a, In (EvGetByIDForUpdate id (Ok a)) t ->
                IsNegative (Balance a) = false) ->
  forall id b, In (id, b) (writes t) -> IsNegative b = false.
Proof.
  unfold executeTransfer, transferInTx.
  destruct (lockOrder sourceID destID) as [firstID secondID].
  split_calls.
  all: intros Hrun Hamt Hrows id b Hin; injection Hrun as <- <- <-.
  all: cbn [writes In] in Hin.
  all: repeat match goal with
         | H : _ \/ _ |- _ => destruct H as [H | H]
         | H : False |- _ => destruct H
         end.
  all: injection Hin as <- <-.
  all: try (apply LessThan_false_Sub_nonneg; assumption).
  all: apply Add_nonneg; [| assumption].
  all: match goal with
       | H : assignRoles _ _ ?x ?y = (_, ?d) |- IsNegative (Balance ?d) = false =>
           unfold assignRoles in H;
           destruct (firstID =? sourceID); injection H as <- <-;
           eapply Hrows; cbn [In]; eauto 6
       end.
Qed.

(** X2. The steps of an attempt come in order: a balance is written only
    once both rows are locked, the destination only after the source was
    written, the transfer is recorded only after both balances were
    written, and the commit is asked for only after the record was made.
    Each step is taken at most once. *)
Theorem attempt_steps_in_order
    (sourceID destID : Z) (amount : Decimal) (w w' : W)
    (res : result Transaction) (t : list Event) :
  executeTransfer sourceID destID amount w = (res, w', t) ->
  (writes t <> [] ->
   exists first second,
     In (EvGetByIDForUpdate (Z.min sourceID destID) (Ok first)) t /\
     In (EvGetByIDForUpdate (Z.max sourceID destID) (Ok second)) t) /\
  (write_errors t = [] \/ (exists e, write_errors t = [Some e])
   \/ (exists e, write_errors t = [None; e])) /\
  (creates t <> [] ->
   write_errors t = [None; None] /\ exists r, creates t = [r]) /\
  (commits t <> [] ->
   (exists p, creates t = [Ok p]) /\ exists e, commits t = [e]).
Proof.
  unfold executeTransfer, transferInTx.
  rewrite lockOrder_min_max.
  split_calls.
  all: intros Hrun; injection Hrun as <- <- <-.
  all: cbn [writes write_errors creates commits In].
  all: split; [| split; [| split]].
  all: try (intros H; try (now elim H); split); eauto 10.
Qed.

End AttemptFacts.

(* ================================================================== *)
(** * Further properties of [Transfer] *)
(* ================================================================== *)

Section TransferFacts.

Context {W Tx : Type}.
Context {parser : DecimalParser}.
Context {accountRepo : AccountRepository W Tx}.
Context {transactionRepo : TransactionRepository W Tx}.
Context {pgxTx : PgxTx W Tx}.
Context {runtime : Runtime W}.

Variable config : TransferServiceConfig.

Lemma writes_app (t1 t2 : list Event) :
  writes (t1 ++ t2) = writes t1 ++ writes t2.
Proof.
  induction t1 as [| e t1 IH]; [reflexivity |].
  destruct e; cbn; now rewrite ?IH.
Qed.

Lemma commits_app (t1 t2 : list Event) :
  commits (t1 ++ t2) = commits t1 ++ commits t2.
Proof.
  induction t1 as [| e t1 IH]; [reflexivity |].
  destruct e; cbn; now rewrite ?IH.
Qed.

Lemma rollbacks_app (t1 t2 : list Event) :
  rollbacks (t1 ++ t2) = rollbacks t1 ++ rollbacks t2.
Proof.
  induction t1 as [| e t1 IH]; [reflexivity |].
  destruct e; cbn; now rewrite ?IH.
Qed.

Lemma begins_app (t1 t2 : list Event) :
  begins (t1 ++ t2) = begins t1 ++ begins t2.
Proof.
  induction t1 as [| e t1 IH]; [reflexivity |].
  destruct e; cbn; now rewrite ?IH.
Qed.


(** The wait of an iteration: none at the first, one event afterwards. *)
Lemma backoff_cases (attempt : Z) (w w1 : W) (done : option ContextErr)
    (tw : list Event) :
  backoff config attempt w = (done, w1, tw) ->
  (attempt <= 0 /\ done = None /\ w1 = w /\ tw = [])
  \/ (0 < attempt /\ tw = [EvWait (retryDelay config attempt) done]).
Proof.
  unfold backoff. destruct (Z.gtb_spec attempt 0) as [Hpos | Hle].
  - unfold call. cbv zeta.
    destruct (AfterOrDone (retryDelay config attempt) w) as [r w0].
    intros H; injection H as <- <- <-. right. split; [lia | reflexivity].
  - unfold ret. intros H; injection H as <- <- <-. left. now repeat split.
Qed.

(** What [Transfer] does before the loop. *)
Lemma Transfer_cases (req : CreateTransactionRequest) (w w' : W)
    (res : result Transaction) (t : list Event) :
  Transfer config req w = (res, w', t) ->
  (res = Err ErrSameAccount /\ w' = w /\ t = [])
  \/ (res = Err ErrInvalidAmount /\ w' = w /\ t = [])
  \/ (exists amount,
        req_SourceAccountID req <> req_DestinationAccountID req /\
        ParseMoney (req_Amount req) = Ok amount /\
        LessThanOrEqual amount Zero = false /\
        retryLoop config (Z.to_nat (MaxRetries config + 1)) 0 None
          (req_SourceAccountID req) (req_DestinationAccountID req) amount w
        = (res, w', t)).
Proof.
  unfold Transfer.
  destruct (Z.eqb_spec (req_SourceAccountID req)
                       (req_DestinationAccountID req)) as [E | Hne].
  { intros H; injection H as <- <- <-. left. now repeat split. }
  destruct (ParseMoney (req_Amount req)) as [amount | e] eqn:Hp.
  2: { intros H; injection H as <- <- <-. right; left. now repeat split. }
  destruct (LessThanOrEqual amount Zero) eqn:Hpos.
  { intros H; injection H as <- <- <-. right; left. now repeat split. }
  intros H. right; right. exists amount. now repeat split.
Qed.

(** A property of traces that holds of the empty trace, of a wait and of
    every attempt, and that is kept by putting traces one after the
    other, holds of every run of the loop. *)
Lemma retryLoop_trace_ind (P : list Event -> Prop)
    (sourceID destID : Z) (amount : Decimal) :
  P [] ->
  (forall t1 t2, P t1 -> P t2 -> P (t1 ++ t2)) ->
  (forall d r, P [EvWait d r]) ->
  (forall w res w' t,
      executeTransfer sourceID destID amount w = (res, w', t) -> P t) ->
  forall (n : nat) (attempt : Z) (lastErr : option error) (w w' : W)
         (res : result Transaction) (t : list Event),
    retryLoop config n attempt lastErr sourceID destID amount w
    = (res, w', t) ->
    P t.
Proof.
  intros Hnil Happ Hwait Hexec.
  induction n as [| n IH]; intros attempt lastErr w w' res t Hrun.
  - cbn in Hrun. injection Hrun as <- <- <-. exact Hnil.
  - rewrite retryLoop_step in Hrun.
    destruct (backoff config attempt w) as [[done w1] tw] eqn:Hb.
    assert (Htw : P tw).
    { destruct (backoff_cases _ _ _ _ _ Hb)
        as [(_ & _ & _ & ->) | (_ & ->)]; [exact Hnil | apply Hwait]. }
    destruct done as [k |].
    + injection Hrun as <- <- <-. exact Htw.
    + destruct (executeTransfer sourceID destID amount w1)
        as [[[txn | err] w2] t1] eqn:He;
        pose proof (Hexec _ _ _ _ He) as Ht1.
      * injection Hrun as <- <- <-. now apply Happ.
      * destruct (IsRetryable (Some err)).
        -- destruct (retryLoop config n (attempt + 1) (Some err)
                       sourceID destID amount w2) as [[r' w3] t'] eqn:Hl.
           injection Hrun as <- <- <-.
           apply Happ; [exact Htw |]. apply Happ; [exact Ht1 |].
           eapply IH; exact Hl.
        -- injection Hrun as <- <- <-. now apply Happ.
Qed.

(** X3. Every store transaction [Transfer] opens is rolled back: in any
    run there are as many rollbacks as successful [BeginTx], also for the
    attempts that committed. *)
Theorem every_opened_transaction_is_rolled_back
    (req : CreateTransactionRequest) (w w' : W)
    (res : result Transaction) (t : list Event) :
  Transfer config req w = (res, w', t) ->
  List.length (rollbacks t)
  = List.length (filter (fun e => match e with None => true | _ => false end)
                        (begins t)).
Proof.
  intros Hrun.
  destruct (Transfer_cases _ _ _ _ _ Hrun)
    as [(_ & _ & ->) | [(_ & _ & ->) | (amount & _ & _ & _ & Hloop)]];
    try reflexivity.
  pattern t.
  eapply retryLoop_trace_ind; [| | | | exact Hloop]; cbv beta.
  - reflexivity.
  - intros t1 t2 H1 H2.
    now rewrite rollbacks_app, begins_app, filter_app, !length_app, H1, H2.
  - reflexivity.
  - intros w0 r w1 t0. apply executeTransfer_rollbacks.
Qed.

(** X4. Every balance [Transfer] writes is non-negative, as long as no
    row the store hands out under lock has a negative balance. *)
Theorem written_balances_never_negative
    (req : CreateTransactionRequest) (w w' : W)
    (res : result Transaction) (t : list Event) :
  Transfer config req w = (res, w', t) ->
  (forall id a, In (EvGetByIDForUpdate id (Ok a)) t ->
                IsNegative (Balance a) = false) ->
  forall id b, In (id, b) (writes t) -> IsNegative b = false.
Proof.
  intros Hrun.
  destruct (Transfer_cases _ _ _ _ _ Hrun)
    as [(_ & _ & ->) | [(_ & _ & ->) | (amount & _ & _ & Hpos & Hloop)]];
    try (intros _ id b []).
  pattern t.
  eapply retryLoop_trace_ind; [| | | | exact Hloop]; cbv beta.
  - intros _ id b [].
  - intros t1 t2 H1 H2 Hrows id b Hin.
    rewrite writes_app in Hin. apply in_app_or in Hin.
    destruct Hin as [Hin | Hin].
    + apply (H1 (fun i a Hi => Hrows i a (in_or_app _ _ _ (or_introl Hi)))
               id b Hin).
    + apply (H2 (fun i a Hi => Hrows i a (in_or_app _ _ _ (or_intror Hi)))
               id b Hin).
  - intros d r _ id b [].
  - intros w0 r w1 t0 He.
    apply (executeTransfer_writes_nonneg _ _ _ _ _ _ _ He).
    now apply positive_not_negative.
Qed.

Lemma backoff_commits (attempt : Z) (w w1 : W) (done : option ContextErr)
    (tw : list Event) :
  backoff config attempt w = (done, w1, tw) -> commits tw = [].
Proof.
  intros Hb.
  destruct (backoff_cases _ _ _ _ _ Hb) as [(_ & _ & _ & ->) | (_ & ->)];
    reflexivity.
Qed.

(** A run of the loop that succeeds ends on the one commit that succeeded
    and returns the transfer asked for; a run that fails has no commit that
    succeeded. *)
Lemma retryLoop_commit (sourceID destID : Z) (amount : Decimal) :
  forall (n : nat) (attempt : Z) (lastErr : option error) (w w' : W)
         (res : result Transaction) (t : list Event),
    retryLoop config n attempt lastErr sourceID destID amount w
    = (res, w', t) ->
    match res with
    | Ok txn =>
        (exists pre, commits t = pre ++ [None] /\ ~ In None pre) /\
        SourceAccountID txn = sourceID /\
        DestinationAccountID txn = destID /\
        Amount txn = amount
    | Err _ => ~ In None (commits t)
    end.
Proof.
  induction n as [| n IH]; intros attempt lastErr w w' res t Hrun.
  - cbn in Hrun. injection Hrun as <- <- <-. intros [].
  - rewrite retryLoop_step in Hrun.
    destruct (backoff config attempt w) as [[done w1] tw] eqn:Hb.
    pose proof (backoff_commits _ _ _ _ _ Hb) as Hw.
    destruct done as [k |].
    + injection Hrun as <- <- <-. rewrite Hw. intros [].
    + destruct (executeTransfer sourceID destID amount w1)
        as [[[txn | err] w2] t1] eqn:He;
        pose proof (executeTransfer_commit _ _ _ _ _ _ _ He) as H1;
        cbn beta iota in H1.
      * injection Hrun as <- <- <-.
        destruct H1 as (Hc & Hs & Hd & Ha).
        rewrite commits_app, Hw, Hc. cbn [app].
        split; [| now repeat split].
        exists []. split; [reflexivity | intros []].
      * destruct (IsRetryable (Some err)).
        -- destruct (retryLoop config n (attempt + 1) (Some err)
                       sourceID destID amount w2) as [[r' w3] t'] eqn:Hl.
           injection Hrun as <- <- <-.
           specialize (IH _ _ _ _ _ _ Hl).
           rewrite !commits_app, Hw. cbn [app].
           destruct r' as [txn | e'].
           ++ destruct IH as ((pre & Hpre & Hno) & Hrest).
              split; [| exact Hrest].
              exists (commits t1 ++ pre). rewrite Hpre, app_assoc.
              split; [reflexivity |].
              intros Hin. apply in_app_or in Hin. tauto.
           ++ intros Hin. apply in_app_or in Hin. tauto.
        -- injection Hrun as <- <- <-.
           rewrite commits_app, Hw. exact H1.
Qed.

(** X5. [Transfer] reports success exactly when a commit succeeded: a
    successful run ends its commits on the one that succeeded, and in a
    failed run no commit succeeded. *)
Theorem success_exactly_when_committed
    (req : CreateTransactionRequest) (w w' : W)
    (res : result Transaction) (t : list Event) :
  Transfer config req w = (res, w', t) ->
  match res with
  | Ok _ => exists pre, commits t = pre ++ [None] /\ ~ In None pre
  | Err _ => ~ In None (commits t)
  end.
Proof.
  intros Hrun.
  destruct (Transfer_cases _ _ _ _ _ Hrun)
    as [(-> & _ & ->) | [(-> & _ & ->) | (amount & _ & _ & _ & Hloop)]];
    try (intros []).
  pose proof (retryLoop_commit _ _ _ _ _ _ _ _ _ _ Hloop) as H.
  destruct res; [exact (proj1 H) | exact H].
Qed.

(** X6. The transfer a successful [Transfer] returns is the one asked
    for: its accounts are those of the request and differ, and its amount
    is the parsed amount text, which is positive. *)
Theorem successful_transfer_is_the_one_asked_for
    (req : CreateTransactionRequest) (w w' : W)
    (txn : Transaction) (t : list Event) :
  Transfer config req w = (Ok txn, w', t) ->
  SourceAccountID txn = req_SourceAccountID req /\
  DestinationAccountID txn = req_DestinationAccountID req /\
  SourceAccountID txn <> DestinationAccountID txn /\
  ParseMoney (req_Amount req) = Ok (Amount txn) /\
  0 < value (Amount txn).
Proof.
  intros Hrun.
  destruct (Transfer_cases _ _ _ _ _ Hrun)
    as [(E & _) | [(E & _) | (amount & Hne & Hp & Hpos & Hloop)]];
    try discriminate E.
  pose proof (retryLoop_commit _ _ _ _ _ _ _ _ _ _ Hloop)
    as (_ & Hs & Hd & Ha).
  rewrite Hs, Hd, Ha. repeat split; try assumption.
  rewrite LessThanOrEqual_Zero in Hpos. apply Z.leb_gt in Hpos. exact Hpos.
Qed.





End TransferFacts.

(* ================================================================== *)
(** * Further properties of the error model *)
(* ================================================================== *)

Section ErrorFacts.

Lemma code_text_injective (a b : ErrorCode) :
  code_text a = code_text b -> a = b.
Proof. destruct a, b; intros H; try reflexivity; discriminate H. Qed.

(** X9. Two errors match exactly when both are domain errors of one
    code: the messages and the causes play no part, and an error that is
    not a domain error matches nothing. *)
Theorem Is_matches_by_code_alone (e target : error) :
  Is e target = true <->
  exists code m cause m' cause',
    e = DomainError code m cause /\ target = DomainError code m' cause'.
Proof.
  split.
  - destruct e as [c m cause | k | s]; destruct target as [c' m' cause' | k' | s'];
      cbn; try discriminate.
    unfold ErrorCode_eqb. intros H. apply String.eqb_eq in H.
    apply code_text_injective in H. subst c'.
    now exists c, m, cause, m', cause'.
  - intros (code & m & cause & m' & cause' & -> & ->). cbn.
    unfold ErrorCode_eqb. apply String.eqb_refl.
Qed.






End ErrorFacts.

(* ================================================================== *)
(** * Properties of the response mapping *)
(* ================================================================== *)

Section HandlerFacts.

Import handler.

(** X12. A domain error is answered with one of five statuses.  Below
    500 the code and the message of the error are passed on as they are;
    at 500 the response carries the fixed code and message, so nothing of
    an internal failure reaches the client; and the three infrastructure
    codes are always answered with 500. *)
Theorem mapDomainError_hides_internal_failures
    (code : ErrorCode) (message : string) :
  let '(status, errorCode, msg) := mapDomainError code message in
  In status [400; 404; 409; 422; 500] /\
  (status < 500 -> errorCode = code_text code /\ msg = message) /\
  (status = 500 ->
   errorCode = "internal_error" /\
   msg = "An unexpected error occurred. Please try again later.") /\
  (In code [CodeDatabaseError; CodeTransactionFailed; CodeInternalError] ->
   status = 500).
Proof.
  destruct code; cbv [mapDomainError StatusBadRequest StatusNotFound
                      StatusConflict StatusUnprocessableEntity
                      StatusInternalServerError];
    (split; [cbn; auto 10 | split; [| split]]).
  all: try (intros H; (split; reflexivity) || (exfalso; lia)).
  all: try (intros _; reflexivity).
  all: cbn [In]; intros H;
    repeat (destruct H as [H | H]; try discriminate H); destruct H.
Qed.

End HandlerFacts.

(* ================================================================== *)
(** * Properties of the validator and of the account service *)
(* ================================================================== *)

Section ValidationFacts.

Import validator accountService.

Lemma LessThan_Zero (d : Decimal) : LessThan d Zero = IsNegative d.
Proof.
  unfold LessThan, IsNegative.
  rewrite (Cmp_scaled (Z.min (exp d) 1))
    by (change (exp Zero) with 1; lia).
  unfold scaled. change (value Zero) with 0. rewrite Z.mul_0_l.
  assert (P : 0 < 10 ^ (exp d - Z.min (exp d) 1)) by (apply pow10_pos; lia).
  set (p := 10 ^ (exp d - Z.min (exp d) 1)) in *.
  destruct (Z.ltb_spec (value d) 0) as [L | L];
    destruct (value d * p ?= 0) eqn:E; try reflexivity.
  - apply Z.compare_eq in E. nia.
  - change (value d * p > 0) in E. nia.
  - change (value d * p < 0) in E. nia.
Qed.

Context {parser : DecimalParser}.

(** X13. A transfer request passes the validator exactly when both ids
    are positive and differ and the amount text is not empty and parses
    to a positive value. *)
Theorem ValidateCreateTransaction_passes_iff (req : CreateTransactionRequest) :
  ValidateCreateTransaction req = [] <->
  0 < req_SourceAccountID req /\
  0 < req_DestinationAccountID req /\
  req_SourceAccountID req <> req_DestinationAccountID req /\
  req_Amount req <> "" /\
  exists amount,
    NewFromString (req_Amount req) = Ok amount /\ 0 < value amount.
Proof.
  unfold ValidateCreateTransaction.
  destruct (Z.leb_spec (req_SourceAccountID req) 0) as [Hs | Hs];
    destruct (Z.leb_spec (req_DestinationAccountID req) 0) as [Hd | Hd];
    destruct (Z.gtb_spec (req_SourceAccountID req) 0) as [Hs' | Hs'];
    destruct (Z.gtb_spec (req_DestinationAccountID req) 0) as [Hd' | Hd'];
    try lia;
    destruct (Z.eqb_spec (req_SourceAccountID req)
                         (req_DestinationAccountID req)) as [He | He];
    destruct (String.eqb_spec (req_Amount req) "") as [Ha | Ha];
    cbn [andb app];
    try (destruct (NewFromString (req_Amount req)) as [amount | e] eqn:Hp;
         [rewrite LessThanOrEqual_Zero;
          destruct (Z.leb_spec (value amount) 0) as [Hv | Hv] |]);
    cbn [app];
    (split; [intros H; try discriminate H | intros (H1 & H2 & H3 & H4 & a & H5 & H6)]);
    try lia; try contradiction;
    try discriminate H5; try (injection H5 as <-; lia).
  - split; [lia |]. split; [lia |]. split; [assumption |].
    split; [assumption |]. now exists amount.
  - reflexivity.
Qed.

(** X14. A request the validator lets through is not refused by the own
    validation of [Transfer]: the engine goes on to its attempts with the
    parsed amount. *)
Theorem validated_request_reaches_the_attempts
    {W Tx : Type}
    {accountRepo : AccountRepository W Tx}
    {transactionRepo : TransactionRepository W Tx}
    {pgxTx : PgxTx W Tx} {runtime : Runtime W}
    (config : TransferServiceConfig) (req : CreateTransactionRequest) (w : W) :
  ValidateCreateTransaction req = [] ->
  exists amount,
    NewFromString (req_Amount req) = Ok amount /\
    Transfer config req w
    = retryLoop config (Z.to_nat (MaxRetries config + 1)) 0 None
        (req_SourceAccountID req) (req_DestinationAccountID req) amount w.
Proof.
  intros Hv. apply ValidateCreateTransaction_passes_iff in Hv.
  destruct Hv as (_ & _ & Hne & Ha & amount & Hp & Hpos).
  exists amount. split; [exact Hp |].
  unfold Transfer, ParseMoney.
  destruct (Z.eqb_spec (req_SourceAccountID req)
                       (req_DestinationAccountID req)); [contradiction |].
  destruct (String.eqb_spec (req_Amount req) ""); [contradiction |].
  rewrite Hp, LessThanOrEqual_Zero.
  destruct (Z.leb_spec (value amount) 0); [lia | reflexivity].
Qed.

(** X15. An account request passes the validator exactly when the id is
    positive and the balance text is not empty and parses to a value that
    is not negative. *)
Theorem ValidateCreateAccount_passes_iff (req : CreateAccountRequest) :
  ValidateCreateAccount req = [] <->
  0 < car_AccountID req /\
  car_InitialBalance req <> "" /\
  exists balance,
    NewFromString (car_InitialBalance req) = Ok balance /\ 0 <= value balance.
Proof.
  unfold ValidateCreateAccount.
  destruct (Z.leb_spec (car_AccountID req) 0) as [Hs | Hs];
    destruct (String.eqb_spec (car_InitialBalance req) "") as [Ha | Ha];
    cbn [app];
    try (destruct (NewFromString (car_InitialBalance req))
           as [balance | e] eqn:Hp;
         [rewrite LessThan_Zero; unfold IsNegative;
          destruct (Z.ltb_spec (value balance) 0) as [Hv | Hv] |]);
    cbn [app];
    (split; [intros H; try discriminate H | intros (H1 & H2 & a & H5 & H6)]);
    try lia; try contradiction;
    try discriminate H5; try (injection H5 as <-; lia).
  - split; [lia |]. split; [assumption |]. now exists balance.
  - reflexivity.
Qed.

End ValidationFacts.

Section AccountServiceFacts.

Import validator accountService.

Context {W : Type}.
Context {parser : DecimalParser}.
Context {accountRepo : AccountStore W}.

(** Runs [CreateAccount] on each outcome of its steps. *)
Ltac split_create :=
  unfold CreateAccount;
  destruct (ParseMoney _) as [balance | perr] eqn:Hparse;
  [ destruct (LessThan balance Zero) eqn:Hneg;
    [ | destruct (AccountExists _ _) as [[[|] | xerr] w1] eqn:Hexists;
        [ | destruct (AccountCreate _ _) as [[[created updated] | cerr] w2]
              eqn:Hcreate;
            [ | destruct (isDuplicateKeyError (Some cerr)) eqn:Hdup ] | ] ]
  | ].

(** X16. What [CreateAccount] can return.  A created account carries the
    id of the request and the parsed balance, which is not negative, and
    was stored after the store said the id was free.  A failure is
    [ErrInvalidAmount], raised before any call to the store,
    [ErrAccountAlreadyExists], or a [DatabaseError] wrapping the error of
    the store: no error of the store is returned as it is. *)
Theorem CreateAccount_outcomes
    (req : CreateAccountRequest) (w w' : W)
    (res : result Account) (t : list AccountCall) :
  CreateAccount req w = (res, w', t) ->
  match res with
  | Ok account =>
      AccountID account = car_AccountID req /\
      ParseMoney (car_InitialBalance req) = Ok (Balance account) /\
      IsNegative (Balance account) = false /\
      exists stamps,
        t = [CallExists (car_AccountID req) (Ok false);
             CallCreate (mkAccount (car_AccountID req) (Balance account) 0 0)
                        (Ok stamps)]
  | Err e =>
      (e = ErrInvalidAmount /\ w' = w /\ t = [])
      \/ e = ErrAccountAlreadyExists
      \/ exists message cause,
           e = WrapError CodeDatabaseError message (Some cause)
  end.
Proof.
  split_create; intros H; injection H as <- <- <-; cbn [app].
  - left. now repeat split.
  - right; left. reflexivity.
  - cbn [AccountID Balance]. rewrite LessThan_Zero in Hneg.
    split; [reflexivity |]. split; [reflexivity |]. split; [exact Hneg |].
    now exists (created, updated).
  - right; left. reflexivity.
  - right; right. now exists "failed to create account", cerr.
  - right; right. now exists "failed to check account existence", xerr.
  - left. now repeat split.
Qed.

(** X17. [Create] is asked of the store only after [Exists] answered
    that the id is free, and only for a balance that is not negative; an
    id the store knows is refused with [ErrAccountAlreadyExists] without
    [Create] being called; and a creation the store refuses as a
    duplicate key is reported as [ErrAccountAlreadyExists] too. *)
Theorem Create_only_for_a_free_id
    (req : CreateAccountRequest) (w w' : W)
    (res : result Account) (t : list AccountCall) :
  CreateAccount req w = (res, w', t) ->
  (In (CallExists (car_AccountID req) (Ok true)) t ->
   res = Err ErrAccountAlreadyExists /\
   t = [CallExists (car_AccountID req) (Ok true)]) /\
  (forall account r,
      In (CallCreate account r) t ->
      t = [CallExists (car_AccountID req) (Ok false); CallCreate account r] /\
      AccountID account = car_AccountID req /\
      IsNegative (Balance account) = false) /\
  (forall account err,
      In (CallCreate account (Err err)) t ->
      isDuplicateKeyError (Some err) = true ->
      res = Err ErrAccountAlreadyExists).
Proof.
  split_create; intros H; injection H as <- <- <-; cbn [app].
  all: try rewrite LessThan_Zero in Hneg.
  all: split; [| split].
  all: cbn [In].
  all: intros.
  all: repeat match goal with
         | H : _ \/ _ |- _ => destruct H as [H | H]
         | H : False |- _ => destruct H
         | H : CallExists _ _ = CallCreate _ _ |- _ => discriminate H
         | H : CallExists _ (Ok false) = CallExists _ (Ok true) |- _ =>
             discriminate H
         | H : CallCreate _ (Ok _) = CallCreate _ (Err _) |- _ =>
             discriminate H
         | H : CallCreate _ _ = CallCreate _ _ |- _ =>
             injection H as ? ?; subst
         end.
  all: cbn [AccountID Balance]; repeat split; try reflexivity;
    try assumption; try congruence.
Qed.

(** X18. A request the account validator lets through is not refused by
    the own validation of [CreateAccount]: the service goes on to ask the
    store whether the id exists. *)
Theorem validated_account_request_reaches_the_store
    (req : CreateAccountRequest) (w : W) :
  ValidateCreateAccount req = [] ->
  exists rest,
    snd (CreateAccount req w)
    = CallExists (car_AccountID req)
        (fst (AccountExists (car_AccountID req) w)) :: rest.
Proof.
  intros Hv. apply ValidateCreateAccount_passes_iff in Hv.
  destruct Hv as (_ & Ha & balance & Hp & Hpos).
  unfold CreateAccount, ParseMoney.
  destruct (String.eqb_spec (car_InitialBalance req) ""); [contradiction |].
  rewrite Hp, LessThan_Zero. unfold IsNegative.
  destruct (Z.ltb_spec (value balance) 0); [lia |].
  destruct (AccountExists (car_AccountID req) w) as [[[|] | xerr] w1];
    cbn [fst snd]; eauto.
  destruct (AccountCreate _ w1) as [[[created updated] | cerr] w2];
    [| destruct (isDuplicateKeyError (Some cerr))]; cbn [snd app]; eauto.
Qed.

End AccountServiceFacts.

(* ================================================================== *)
(** * The path of a successful attempt *)
(* ================================================================== *)

Section SuccessPath.

Context {W Tx : Type}.
Context {parser : DecimalParser}.
Context {accountRepo : AccountRepository W Tx}.
Context {transactionRepo : TransactionRepository W Tx}.
Context {pgxTx : PgxTx W Tx}.
Context {runtime : Runtime W}.

(** The attempt in which every call succeeds and the balance suffices. *)
Lemma executeTransfer_success_path
    (sourceID destID : Z) (amount : Decimal)
    (w w1 w2 w3 w4 w5 w6 w7 w8 : W) (tx : Tx)
    (first second sourceAccount destAccount : Account)
    (id created : Z) (re : option error) :
  BeginTx w = (Ok tx, w1) ->
  GetByIDForUpdate tx (fst (lockOrder sourceID destID)) w1 = (Ok first, w2) ->
  GetByIDForUpdate tx (snd (lockOrder sourceID destID)) w2 = (Ok second, w3) ->
  assignRoles (fst (lockOrder sourceID destID)) sourceID first second
    = (sourceAccount, destAccount) ->
  LessThan (Balance sourceAccount) amount = false ->
  UpdateBalance tx (AccountID sourceAccount)
    (Sub (Balance sourceAccount) amount) w3 = (None, w4) ->
  UpdateBalance tx (AccountID destAccount)
    (Add (Balance destAccount) amount) w4 = (None, w5) ->
  Create tx (mkTransaction 0 sourceID destID amount 0) w5
    = (Ok (id, created), w6) ->
  Commit tx w6 = (None, w7) ->
  Rollback tx w7 = (re, w8) ->
  executeTransfer sourceID destID amount w
  = (Ok (mkTransaction id sourceID destID amount created), w8,
     [EvBeginTx None;
      EvGetByIDForUpdate (fst (lockOrder sourceID destID)) (Ok first);
      EvGetByIDForUpdate (snd (lockOrder sourceID destID)) (Ok second);
      EvUpdateBalance (AccountID sourceAccount)
        (Sub (Balance sourceAccount) amount) None;
      EvUpdateBalance (AccountID destAccount)
        (Add (Balance destAccount) amount) None;
      EvCreate (mkTransaction 0 sourceID destID amount 0) (Ok (id, created));
      EvCommit None;
      EvRollback re]).
Proof.
  intros Hbegin Hl1 Hl2 Hroles Hlt Hu1 Hu2 Hc Hcommit Hrb.
  unfold executeTransfer, transferInTx.
  destruct (lockOrder sourceID destID) as [firstID secondID].
  cbn [fst snd] in *. engine_step.
  rewrite Hbegin. engine_step. rewrite Hl1. engine_step.
  rewrite Hl2. engine_step. rewrite Hroles, Hlt. engine_step.
  rewrite Hu1. engine_step. rewrite Hu2. engine_step.
  rewrite Hc. engine_step. rewrite Hcommit. engine_step. rewrite Hrb.
  reflexivity.
Qed.


(** A valid request whose first attempt settles (it succeeds, or fails
    with an error that is not retryable) is answered by that attempt. *)
Lemma Transfer_first_attempt
    (config : TransferServiceConfig) (req : CreateTransactionRequest)
    (amount : Decimal) (w w' : W) (res : result Transaction)
    (t : list Event) :
  req_SourceAccountID req <> req_DestinationAccountID req ->
  ParseMoney (req_Amount req) = Ok amount ->
  LessThanOrEqual amount Zero = false ->
  0 <= MaxRetries config ->
  executeTransfer (req_SourceAccountID req) (req_DestinationAccountID req)
    amount w = (res, w', t) ->
  IsRetryable (err_of res) = false ->
  Transfer config req w = (res, w', t).
Proof.
  intros Hne Hp Hpos Hmax Hx Hfinal. unfold Transfer.
  destruct (Z.eqb_spec (req_SourceAccountID req)
                       (req_DestinationAccountID req)) as [E | _];
    [contradiction |].
  rewrite Hp, Hpos.
  destruct (Z.to_nat (MaxRetries config + 1)) as [| n] eqn:En; [lia |].
  rewrite retryLoop_step. unfold backoff. cbn [Z.gtb Z.compare]. unfold ret.
  rewrite Hx. destruct res as [txn | e]; [reflexivity |].
  cbn [err_of] in Hfinal. now rewrite Hfinal.
Qed.

End SuccessPath.

(* ================================================================== *)
(** * Properties of the in-memory doubles *)
(* ================================================================== *)

Section MockFacts.

Import mocks.

Lemma mockBeginTx_healthy (w : World) :
  healthy w -> BeginTx w = (Ok mkMockTx, w).
Proof.
  intros (Hb & _). cbn. unfold mockBeginTx. now rewrite Hb.
Qed.

Lemma mockLock_healthy (tx : MockTx) (id : Z) (w : World) (a : Account) :
  healthy w ->
  lookup id (accounts w) = Some a ->
  GetByIDForUpdate tx id w = (Ok (mkAccount (AccountID a) (Balance a) 0 0), w).
Proof.
  intros (_ & Hg & _ & Hd) Hl. cbn. unfold mockGetByIDForUpdate.
  now rewrite Hd, Hg, Hl.
Qed.

Lemma mockLock_missing (tx : MockTx) (id : Z) (w : World) :
  healthy w ->
  lookup id (accounts w) = None ->
  GetByIDForUpdate tx id w = (Err ErrAccountNotFound, w).
Proof.
  intros (_ & Hg & _ & Hd) Hl. cbn. unfold mockGetByIDForUpdate.
  now rewrite Hd, Hg, Hl.
Qed.

Lemma mockUpdate_healthy (tx : MockTx) (id : Z) (b : Decimal) (w : World)
    (a : Account) :
  UpdateBalanceError w = None ->
  lookup id (accounts w) = Some a ->
  UpdateBalance tx id b w
  = (None,
     with_accounts w
       ((id, mkAccount (AccountID a) b (Account_CreatedAt a) (UpdatedAt a))
        :: accounts w)).
Proof.
  intros Hu Hl. cbn. unfold mockUpdateBalance. now rewrite Hu, Hl.
Qed.

(** The attempt of the engine on a healthy mock that holds both
    accounts, the source with enough balance. *)
Lemma mock_attempt_succeeds
    (sourceID destID : Z) (amount : Decimal) (w : World) (sa da : Account) :
  healthy w -> CreateError w = None ->
  sourceID <> destID ->
  lookup sourceID (accounts w) = Some sa ->
  lookup destID (accounts w) = Some da ->
  AccountID sa = sourceID -> AccountID da = destID ->
  LessThan (Balance sa) amount = false ->
  let newSource :=
    mkAccount sourceID (Sub (Balance sa) amount)
              (Account_CreatedAt sa) (UpdatedAt sa) in
  let newDest :=
    mkAccount destID (Add (Balance da) amount)
              (Account_CreatedAt da) (UpdatedAt da) in
  let txn := mkTransaction (nextID w) sourceID destID amount 0 in
  exists t,
    executeTransfer sourceID destID amount w
    = (Ok txn,
       mkWorld ((destID, newDest) :: (sourceID, newSource) :: accounts w)
         ((nextID w, txn) :: transactions w) (nextID w + 1)
         (GetByIDForUpdateError w) (UpdateBalanceError w) (BeginTxError w)
         (CreateError w) (GetByIDError w) (GetByAccountIDError w)
         (deadlocks w) (ctxDone w),
       t) /\
    attempts t = 1%nat.
Proof.
  intros Hh Hc Hne Hs Hd Hsa Hda Hlt newSource newDest txn.
  pose proof Hh as (_ & _ & Hu & _).
  subst sourceID destID.
  set (copy := fun a : Account => mkAccount (AccountID a) (Balance a) 0 0).
  set (w4 := with_accounts w ((AccountID sa, newSource) :: accounts w)).
  set (w5 := with_accounts w4 ((AccountID da, newDest) :: accounts w4)).
  assert (Hu1 : UpdateBalance mkMockTx (AccountID (copy sa))
                  (Sub (Balance (copy sa)) amount) w = (None, w4)).
  { cbn [copy AccountID Balance].
    now rewrite (mockUpdate_healthy _ _ _ _ _ Hu Hs). }
  assert (Hu2 : UpdateBalance mkMockTx (AccountID (copy da))
                  (Add (Balance (copy da)) amount) w4 = (None, w5)).
  { cbn [copy AccountID Balance].
    assert (Hl : lookup (AccountID da) (accounts w4) = Some da).
    { unfold w4. cbn.
      destruct (Z.eqb_spec (AccountID sa) (AccountID da));
        [contradiction | exact Hd]. }
    now rewrite (mockUpdate_healthy mkMockTx _ _ w4 _ Hu Hl). }
  assert (Hcr : Create mkMockTx
                  (mkTransaction 0 (AccountID sa) (AccountID da) amount 0) w5
                = (Ok (nextID w, 0),
                   mkWorld ((AccountID da, newDest)
                            :: (AccountID sa, newSource) :: accounts w)
                     ((nextID w, txn) :: transactions w) (nextID w + 1)
                     (GetByIDForUpdateError w) (UpdateBalanceError w)
                     (BeginTxError w) (CreateError w) (GetByIDError w)
                     (GetByAccountIDError w) (deadlocks w) (ctxDone w))).
  { cbn. unfold mockCreate. cbn. now rewrite Hc. }
  destruct (Z.gtb_spec (AccountID sa) (AccountID da)) as [Hgt | Hle].
  - eexists. split.
    + eapply (executeTransfer_success_path (AccountID sa) (AccountID da)
                amount w w w w w4 w5 _ _ _ mkMockTx (copy da) (copy sa)
                (copy sa) (copy da) (nextID w) 0 None).
      * now apply mockBeginTx_healthy.
      * unfold lockOrder.
        destruct (Z.gtb_spec (AccountID sa) (AccountID da)); [| lia].
        now apply mockLock_healthy.
      * unfold lockOrder.
        destruct (Z.gtb_spec (AccountID sa) (AccountID da)); [| lia].
        now apply mockLock_healthy.
      * unfold lockOrder, assignRoles.
        destruct (Z.gtb_spec (AccountID sa) (AccountID da)); [| lia].
        cbn [fst].
        destruct (Z.eqb_spec (AccountID da) (AccountID sa));
          [congruence | reflexivity].
      * exact Hlt.
      * exact Hu1.
      * exact Hu2.
      * exact Hcr.
      * reflexivity.
      * reflexivity.
    + reflexivity.
  - eexists. split.
    + eapply (executeTransfer_success_path (AccountID sa) (AccountID da)
                amount w w w w w4 w5 _ _ _ mkMockTx (copy sa) (copy da)
                (copy sa) (copy da) (nextID w) 0 None).
      * now apply mockBeginTx_healthy.
      * unfold lockOrder.
        destruct (Z.gtb_spec (AccountID sa) (AccountID da)); [lia |].
        now apply mockLock_healthy.
      * unfold lockOrder.
        destruct (Z.gtb_spec (AccountID sa) (AccountID da)); [lia |].
        now apply mockLock_healthy.
      * unfold lockOrder, assignRoles.
        destruct (Z.gtb_spec (AccountID sa) (AccountID da)); [lia |].
        cbn [fst]. now rewrite Z.eqb_refl.
      * exact Hlt.
      * exact Hu1.
      * exact Hu2.
      * exact Hcr.
      * reflexivity.
      * reflexivity.
    + reflexivity.
Qed.

Context {parser : DecimalParser}.

(** X19. On a mock repository without injected failure that holds both
    accounts, a valid transfer the source can afford succeeds at the first
    attempt: the source balance goes down by the amount and the
    destination balance up by it, every other account keeps its balance,
    the transfer gets the next identifier, and [GetTransaction] on that
    identifier returns the transfer. *)
Theorem mock_transfer_moves_the_amount
    (config : TransferServiceConfig) (req : CreateTransactionRequest)
    (w : World) (amount : Decimal) (sa da : Account) :
  healthy w -> CreateError w = None -> GetByIDError w = None ->
  0 <= MaxRetries config ->
  req_SourceAccountID req <> req_DestinationAccountID req ->
  ParseMoney (req_Amount req) = Ok amount ->
  LessThanOrEqual amount Zero = false ->
  lookup (req_SourceAccountID req) (accounts w) = Some sa ->
  lookup (req_DestinationAccountID req) (accounts w) = Some da ->
  AccountID sa = req_SourceAccountID req ->
  AccountID da = req_DestinationAccountID req ->
  LessThan (Balance sa) amount = false ->
  let txn :=
    mkTransaction (nextID w) (req_SourceAccountID req)
                  (req_DestinationAccountID req) amount 0 in
  exists w' t,
    Transfer config req w = (Ok txn, w', t) /\
    attempts t = 1%nat /\
    balanceOf (req_SourceAccountID req) w' = Some (Sub (Balance sa) amount) /\
    balanceOf (req_DestinationAccountID req) w'
      = Some (Add (Balance da) amount) /\
    (forall id,
        id <> req_SourceAccountID req -> id <> req_DestinationAccountID req ->
        balanceOf id w' = balanceOf id w) /\
    fst (fst (GetTransaction (nextID w) w')) = Ok txn /\
    nextID w' = nextID w + 1.
Proof.
  intros Hh Hc Hg Hmax Hne Hp Hpos Hs Hd Hsa Hda Hlt txn.
  destruct (mock_attempt_succeeds _ _ amount w sa da Hh Hc Hne Hs Hd Hsa Hda Hlt)
    as (t & Hx & Hat).
  eexists _, t. split.
  - apply (Transfer_first_attempt config req amount w _ _ t Hne Hp Hpos Hmax Hx).
    reflexivity.
  - split; [exact Hat |].
    unfold balanceOf. cbn [accounts lookup nextID].
    rewrite !Z.eqb_refl.
    destruct (Z.eqb_spec (req_DestinationAccountID req)
                         (req_SourceAccountID req)) as [E | _];
      [congruence |].
    cbn [option_map Balance].
    split; [reflexivity |]. split; [reflexivity |].
    split.
    + intros id H1 H2.
      destruct (Z.eqb_spec (req_DestinationAccountID req) id); [congruence |].
      destruct (Z.eqb_spec (req_SourceAccountID req) id); [congruence |].
      reflexivity.
    + unfold GetTransaction, call.
      cbn [GetByID mockTransactionRepository]. unfold mockGetByID.
      cbn [GetByIDError transactions lookup]. rewrite Hg, Z.eqb_refl.
      now split.
Qed.

(** X20. On a healthy mock, a transfer that names an account the mock
    does not hold fails with [ErrAccountNotFound] after one attempt, and
    the mock is left as it was. *)
Theorem mock_transfer_to_missing_account
    (config : TransferServiceConfig) (req : CreateTransactionRequest)
    (w : World) (amount : Decimal) :
  healthy w ->
  0 <= MaxRetries config ->
  req_SourceAccountID req <> req_DestinationAccountID req ->
  ParseMoney (req_Amount req) = Ok amount ->
  LessThanOrEqual amount Zero = false ->
  lookup (req_SourceAccountID req) (accounts w) = None
  \/ lookup (req_DestinationAccountID req) (accounts w) = None ->
  exists t,
    Transfer config req w = (Err ErrAccountNotFound, w, t) /\
    attempts t = 1%nat /\ writes t = [].
Proof.
  intros Hh Hmax Hne Hp Hpos Hmiss.
  assert (Hx : exists t,
             executeTransfer (req_SourceAccountID req)
               (req_DestinationAccountID req) amount w
             = (Err ErrAccountNotFound, w, t)
             /\ attempts t = 1%nat /\ writes t = []).
  { unfold executeTransfer, transferInTx.
    destruct (lockOrder (req_SourceAccountID req)
                (req_DestinationAccountID req)) as [firstID secondID] eqn:Hlo.
    assert (Hcase : lookup firstID (accounts w) = None
                    \/ lookup secondID (accounts w) = None).
    { unfold lockOrder in Hlo.
      destruct (req_SourceAccountID req >? req_DestinationAccountID req);
        injection Hlo as <- <-; tauto. }
    engine_step. rewrite (mockBeginTx_healthy w Hh). engine_step.
    destruct (lookup firstID (accounts w)) as [a |] eqn:Hf.
    - rewrite (mockLock_healthy _ _ _ _ Hh Hf). engine_step.
      destruct Hcase as [Hcase | Hcase]; [discriminate Hcase |].
      rewrite (mockLock_missing _ _ _ Hh Hcase). engine_step.
      cbn. eexists. now repeat split.
    - rewrite (mockLock_missing _ _ _ Hh Hf). engine_step.
      cbn. eexists. now repeat split. }
  destruct Hx as (t & Hx & Hat & Hw).
  exists t. split; [| now split].
  apply (Transfer_first_attempt config req amount w _ _ t Hne Hp Hpos Hmax Hx).
  reflexivity.
Qed.

Lemma In_page {A : Type} (x : A) (n m : nat) (l : list A) :
  In x (firstn n (skipn m l)) -> In x l.
Proof.
  intros H.
  rewrite <- (firstn_skipn m l). apply in_or_app. right.
  rewrite <- (firstn_skipn n (skipn m l)). apply in_or_app. now left.
Qed.

(** X21. A page of [GetAccountTransactions] on the mock holds at most
    100 transfers, all of them stored in the mock and touching the
    account asked for; the call leaves the mock as it was. *)
Theorem mock_page_is_bounded_and_relevant
    (accountID limit offset : Z) (w w' : World)
    (page : list Transaction) (t : list Event) :
  GetAccountTransactions accountID limit offset w = (Ok page, w', t) ->
  (List.length page <= 100)%nat /\
  Forall (fun txn => touches accountID txn = true
                     /\ In txn (map snd (transactions w))) page /\
  w' = w.
Proof.
  unfold GetAccountTransactions, call. cbn.
  unfold mockGetByAccountID.
  destruct (GetByAccountIDError w); [discriminate |].
  set (l := if (if limit <=? 0 then DefaultPageSize else limit) >? MaxPageSize
            then MaxPageSize
            else if limit <=? 0 then DefaultPageSize else limit).
  set (o := if offset <? 0 then 0 else offset).
  set (all := filter _ (map snd (transactions w))).
  assert (Hl : l <= 100).
  { unfold l, DefaultPageSize, MaxPageSize.
    destruct (limit <=? 0); cbn; [lia |].
    destruct (Z.gtb_spec limit 100); lia. }
  assert (Hall : Forall (fun txn => touches accountID txn = true
                                    /\ In txn (map snd (transactions w))) all).
  { apply Forall_forall. intros txn Hin. unfold all in Hin.
    apply filter_In in Hin. destruct Hin as [Hin Ht]. now split. }
  destruct (o >=? Z.of_nat (List.length all)).
  - intros H; injection H as <- <- _. repeat split; [cbn; lia | constructor].
  - intros H; injection H as <- <- _. repeat split.
    + rewrite length_firstn. lia.
    + apply Forall_forall. intros txn Hin.
      apply (proj1 (Forall_forall _ _) Hall).
      apply (In_page _ _ _ _ Hin).
Qed.



Import accountService mockAccounts.

(** X23. On the account mock without injected failure, creating an
    account whose id is free stores it: the service returns the account
    with the parsed balance, [GetAccount] then returns it, a second
    creation of the same id is refused with [ErrAccountAlreadyExists],
    and no other account is touched. *)
Theorem mock_created_account_can_be_read
    (req : CreateAccountRequest) (aw : AccountsWorld) (balance : Decimal) :
  healthy_accounts aw ->
  lookup (car_AccountID req) (accounts (store aw)) = None ->
  ParseMoney (car_InitialBalance req) = Ok balance ->
  IsNegative balance = false ->
  let account := mkAccount (car_AccountID req) balance 0 0 in
  exists aw',
    CreateAccount req aw
    = (Ok account, aw',
       [CallExists (car_AccountID req) (Ok false);
        CallCreate account (Ok (0, 0))]) /\
    fst (fst (GetAccount (car_AccountID req) aw')) = Ok account /\
    fst (fst (CreateAccount req aw')) = Err ErrAccountAlreadyExists /\
    (forall id, id <> car_AccountID req ->
                lookup id (accounts (store aw'))
                = lookup id (accounts (store aw))).
Proof.
  intros (Hc & Hg & He) Hfree Hp Hneg account.
  eexists. split; [| split; [| split]].
  - unfold CreateAccount. rewrite Hp, LessThan_Zero, Hneg.
    cbn [AccountExists AccountCreate mockAccountStore].
    unfold mockExists, mockAccountCreate. rewrite He, Hfree.
    cbn [AccountID]. rewrite Hc, Hfree. reflexivity.
  - unfold GetAccount. cbn [AccountGetByID mockAccountStore].
    unfold mockAccountGetByID.
    cbn [AccountGetByIDError with_store store with_accounts accounts lookup
         AccountID Balance Account_CreatedAt UpdatedAt].
    now rewrite Hg, Z.eqb_refl.
  - unfold CreateAccount. rewrite Hp, LessThan_Zero, Hneg.
    cbn [AccountExists mockAccountStore]. unfold mockExists.
    cbn [ExistsError with_store store with_accounts accounts lookup
         AccountID].
    now rewrite He, Z.eqb_refl.
  - intros id Hid.
    cbn [with_store store with_accounts accounts lookup AccountID].
    destruct (Z.eqb_spec (car_AccountID req) id); [congruence | reflexivity].
Qed.

End MockFacts.

(* ================================================================== *)
(** * The further properties on the mocks *)
(* ================================================================== *)

Section FurtherOnTheMocks.

Import mocks tests mockAccounts validator accountService handler.

(** With every lock deadlocking, an attempt from 1 to 2 ends on the
    first lock with the deadlock itself. *)
Lemma lock_failure_aborts_attempt_witness :
  let run := executeTransfer 1 2 (NewFromInt 100) allDeadlocks in
  let err := errorString "deadlock detected" in
  In (EvGetByIDForUpdate 1 (Err err)) (snd run) /\
  fst (fst run) = Err err /\
  locks (snd run) = [1] /\
  writes (snd run) = [] /\
  List.length (rollbacks (snd run)) = 1%nat.
Proof.
  intros run err.
  assert (Hin : In (EvGetByIDForUpdate 1 (Err err)) (snd run))
    by (vm_compute; right; left; reflexivity).
  pose proof (lock_failure_aborts_attempt 1 2 (NewFromInt 100) allDeadlocks
                (snd (fst run)) (fst (fst run)) (snd run) 1 err eq_refl Hin)
    as (Hres & _ & Hw & _ & _ & Hrb).
  split; [exact Hin |]. split; [exact Hres |]. split; [reflexivity |].
  split; [exact Hw | exact Hrb].
Defined.

(** The attempt from 1 to 2 on two funded accounts commits, so both
    balances were written without error and the record was made. *)
Lemma attempt_steps_in_order_witness :
  let run := executeTransfer 1 2 (NewFromInt 100) twoAccounts in
  commits (snd run) <> [] /\
  write_errors (snd run) = [None; None] /\
  (exists p, creates (snd run) = [Ok p]) /\
  (exists e, commits (snd run) = [e]).
Proof.
  intros run.
  assert (Hc : commits (snd run) <> []) by (vm_compute; discriminate).
  assert (Hr : creates (snd run) <> []) by (vm_compute; discriminate).
  pose proof (attempt_steps_in_order 1 2 (NewFromInt 100) twoAccounts
                (snd (fst run)) (fst (fst run)) (snd run) eq_refl)
    as (_ & _ & Hcreate & Hcommit).
  split; [exact Hc |]. split; [exact (proj1 (Hcreate Hr)) |].
  exact (Hcommit Hc).
Defined.

(** Four attempts against deadlocking locks: four transactions opened,
    four rolled back. *)
Lemma every_opened_transaction_is_rolled_back_witness :
  let run := Transfer DefaultTransferConfig (request 1 2 "100.00")
               allDeadlocks in
  List.length (rollbacks (snd run))
  = List.length (filter (fun e => match e with None => true | _ => false end)
                        (begins (snd run))) /\
  List.length (rollbacks (snd run)) = 4%nat.
Proof.
  intros run. split; [| reflexivity].
  exact (every_opened_transaction_is_rolled_back DefaultTransferConfig
           (request 1 2 "100.00") allDeadlocks
           (snd (fst run)) (fst (fst run)) (snd run) eq_refl).
Defined.

(** 100.00 from 1000 to 500: the balances written are 900.00 and
    600.00. *)
Lemma written_balances_never_negative_witness :
  let run := Transfer DefaultTransferConfig (request 1 2 "100.00")
               twoAccounts in
  writes (snd run) = [(1, New 90000 (-2)); (2, New 60000 (-2))] /\
  forall id b, In (id, b) (writes (snd run)) -> IsNegative b = false.
Proof.
  intros run. split; [reflexivity |].
  assert (Hrun : Transfer DefaultTransferConfig (request 1 2 "100.00")
                   twoAccounts
                 = (fst (fst run), snd (fst run), snd run))
    by reflexivity.
  apply (written_balances_never_negative DefaultTransferConfig
           (request 1 2 "100.00") twoAccounts
           (snd (fst run)) (fst (fst run)) (snd run) Hrun).
  intros id a Hin. vm_compute in Hin.
  repeat (destruct Hin as [Hin | Hin];
          [try discriminate Hin;
           try (injection Hin as <- <-; reflexivity) |]).
  destruct Hin.
Defined.

(** The successful run on two funded accounts has one commit, which
    succeeded. *)
Lemma success_exactly_when_committed_witness :
  let run := Transfer DefaultTransferConfig (request 1 2 "100.00")
               twoAccounts in
  (exists txn, fst (fst run) = Ok txn) /\
  exists pre, commits (snd run) = pre ++ [None] /\ ~ In None pre.
Proof.
  intros run. split; [eexists; reflexivity |].
  exact (success_exactly_when_committed DefaultTransferConfig
           (request 1 2 "100.00") twoAccounts
           (snd (fst run)) (fst (fst run)) (snd run) eq_refl).
Defined.

(** The transfer returned for 100.00 from 1 to 2. *)
Lemma successful_transfer_is_the_one_asked_for_witness :
  let req := request 1 2 "100.00" in
  let txn := mkTransaction 1 1 2 (New 10000 (-2)) 0 in
  fst (fst (Transfer DefaultTransferConfig req twoAccounts)) = Ok txn /\
  SourceAccountID txn = req_SourceAccountID req /\
  DestinationAccountID txn = req_DestinationAccountID req /\
  SourceAccountID txn <> DestinationAccountID txn /\
  ParseMoney (req_Amount req) = Ok (Amount txn) /\
  0 < value (Amount txn).
Proof.
  intros req txn. split; [reflexivity |].
  set (run := Transfer DefaultTransferConfig req twoAccounts).
  exact (successful_transfer_is_the_one_asked_for DefaultTransferConfig
           req twoAccounts (snd (fst run)) txn (snd run) eq_refl).
Defined.




(** The request for 100.00 from 1 to 2 passes the validator and reaches
    the attempts with the amount 100.00. *)
Lemma validated_request_reaches_the_attempts_witness :
  let req := request 1 2 "100.00" in
  ValidateCreateTransaction req = [] /\
  exists amount,
    NewFromString (req_Amount req) = Ok amount /\
    Transfer DefaultTransferConfig req twoAccounts
    = retryLoop DefaultTransferConfig
        (Z.to_nat (MaxRetries DefaultTransferConfig + 1)) 0 None
        (req_SourceAccountID req) (req_DestinationAccountID req) amount
        twoAccounts.
Proof.
  intros req. split; [reflexivity |].
  exact (validated_request_reaches_the_attempts DefaultTransferConfig req
           twoAccounts eq_refl).
Defined.

(** Account 1 created with 1000.00 on the empty mock. *)
Lemma CreateAccount_outcomes_witness :
  let req := mkCreateAccountRequest 1 "1000.00" in
  let account := mkAccount 1 (New 100000 (-2)) 0 0 in
  fst (fst (CreateAccount req NewAccountsWorld)) = Ok account /\
  AccountID account = car_AccountID req /\
  ParseMoney (car_InitialBalance req) = Ok (Balance account) /\
  IsNegative (Balance account) = false /\
  exists stamps,
    snd (CreateAccount req NewAccountsWorld)
    = [CallExists (car_AccountID req) (Ok false);
       CallCreate (mkAccount (car_AccountID req) (Balance account) 0 0)
                  (Ok stamps)].
Proof.
  intros req account. split; [reflexivity |].
  set (run := CreateAccount req NewAccountsWorld).
  exact (CreateAccount_outcomes req NewAccountsWorld (snd (fst run))
           (Ok account) (snd run) eq_refl).
Defined.

(** Account 1 asked for twice: the second request stops at [Exists]. *)
Lemma Create_only_for_a_free_id_witness :
  let req := mkCreateAccountRequest 1 "1000.00" in
  let once := snd (fst (CreateAccount req NewAccountsWorld)) in
  let run := CreateAccount req once in
  In (CallExists (car_AccountID req) (Ok true)) (snd run) /\
  fst (fst run) = Err ErrAccountAlreadyExists /\
  snd run = [CallExists (car_AccountID req) (Ok true)].
Proof.
  intros req once run.
  assert (Hin : In (CallExists (car_AccountID req) (Ok true)) (snd run))
    by (vm_compute; left; reflexivity).
  split; [exact Hin |].
  exact (proj1 (Create_only_for_a_free_id req once (snd (fst run))
                  (fst (fst run)) (snd run) eq_refl) Hin).
Defined.

(** The request for account 1 with 1000.00 passes the validator and
    reaches [Exists]. *)
Lemma validated_account_request_reaches_the_store_witness :
  let req := mkCreateAccountRequest 1 "1000.00" in
  ValidateCreateAccount req = [] /\
  exists rest,
    snd (CreateAccount req NewAccountsWorld)
    = CallExists (car_AccountID req)
        (fst (AccountExists (car_AccountID req) NewAccountsWorld)) :: rest.
Proof.
  intros req. split; [reflexivity |].
  exact (validated_account_request_reaches_the_store req NewAccountsWorld
           eq_refl).
Defined.

(** 100.00 from account 1 (1000) to account 2 (500) on the mock. *)
Lemma mock_transfer_moves_the_amount_witness :
  let req := request 1 2 "100.00" in
  let amount := New 10000 (-2) in
  let txn := mkTransaction 1 1 2 amount 0 in
  healthy twoAccounts /\
  exists w' t,
    Transfer DefaultTransferConfig req twoAccounts = (Ok txn, w', t) /\
    attempts t = 1%nat /\
    balanceOf 1 w' = Some (Sub (NewFromInt 1000) amount) /\
    balanceOf 2 w' = Some (Add (NewFromInt 500) amount) /\
    (forall id, id <> 1 -> id <> 2 ->
                balanceOf id w' = balanceOf id twoAccounts) /\
    fst (fst (GetTransaction 1 w')) = Ok txn /\
    nextID w' = 1 + 1.
Proof.
  intros req amount txn.
  assert (Hh : healthy twoAccounts) by (repeat split; reflexivity).
  split; [exact Hh |].
  assert (Hmax : 0 <= MaxRetries DefaultTransferConfig) by (vm_compute; discriminate).
  assert (Hne : req_SourceAccountID req <> req_DestinationAccountID req)
    by (vm_compute; discriminate).
  exact (mock_transfer_moves_the_amount DefaultTransferConfig req twoAccounts
           amount (account 1 1000) (account 2 500)
           Hh eq_refl eq_refl Hmax Hne eq_refl eq_refl eq_refl eq_refl
           eq_refl eq_refl eq_refl).
Defined.

(** A transfer to account 2 on a mock that holds account 1 only. *)
Lemma mock_transfer_to_missing_account_witness :
  let w := SetAccount (account 1 1000) NewWorld in
  let req := request 1 2 "100.00" in
  healthy w /\
  lookup 2 (accounts w) = None /\
  exists t,
    Transfer DefaultTransferConfig req w = (Err ErrAccountNotFound, w, t) /\
    attempts t = 1%nat /\ writes t = [].
Proof.
  intros w req.
  assert (Hh : healthy w) by (repeat split; reflexivity).
  split; [exact Hh |]. split; [reflexivity |].
  assert (Hmax : 0 <= MaxRetries DefaultTransferConfig) by (vm_compute; discriminate).
  assert (Hne : req_SourceAccountID req <> req_DestinationAccountID req)
    by (vm_compute; discriminate).
  exact (mock_transfer_to_missing_account DefaultTransferConfig req w
           (New 10000 (-2)) Hh Hmax Hne eq_refl eq_refl
           (or_intror eq_refl)).
Defined.

(** The page of account 1 after one transfer from 1 to 2. *)
Lemma mock_page_is_bounded_and_relevant_witness :
  let w := snd (fst (Transfer DefaultTransferConfig (request 1 2 "100.00")
                       twoAccounts)) in
  let page := [mkTransaction 1 1 2 (New 10000 (-2)) 0] in
  fst (fst (GetAccountTransactions 1 0 0 w)) = Ok page /\
  (List.length page <= 100)%nat /\
  Forall (fun txn => touches 1 txn = true
                     /\ In txn (map snd (transactions w))) page /\
  snd (fst (GetAccountTransactions 1 0 0 w)) = w.
Proof.
  intros w page. split; [reflexivity |].
  set (run := GetAccountTransactions 1 0 0 w).
  exact (mock_page_is_bounded_and_relevant 1 0 0 w (snd (fst run)) page
           (snd run) eq_refl).
Defined.


(** Account 7 created with 12.50 on the empty account mock. *)
Lemma mock_created_account_can_be_read_witness :
  let req := mkCreateAccountRequest 7 "12.50" in
  let account := mkAccount 7 (New 1250 (-2)) 0 0 in
  healthy_accounts NewAccountsWorld /\
  exists aw',
    CreateAccount req NewAccountsWorld
    = (Ok account, aw',
       [CallExists 7 (Ok false); CallCreate account (Ok (0, 0))]) /\
    fst (fst (GetAccount 7 aw')) = Ok account /\
    fst (fst (CreateAccount req aw')) = Err ErrAccountAlreadyExists /\
    (forall id, id <> 7 ->
                lookup id (accounts (store aw'))
                = lookup id (accounts (store NewAccountsWorld))).
Proof.
  intros req account.
  assert (Hh : healthy_accounts NewAccountsWorld)
    by (repeat split; reflexivity).
  split; [exact Hh |].
  exact (mock_created_account_can_be_read req NewAccountsWorld
           (New 1250 (-2)) Hh eq_refl eq_refl eq_refl).
Defined.

End FurtherOnTheMocks.
